(** * Commodity price scraper: a shallow embedding of [scraper.py]

    The development embeds the extraction pipeline of [CommodityScraper]
    (name cleaning, target matching, price extraction, price parsing, the
    table scan and the orchestrating run) and proves its properties.

    Python values are modelled as follows.
    - [str] is [string], each character standing for the code point of its
      number (0-255); whitespace, case and the classes of [re] are those
      Python has on these code points.
    - [float] is the binary64 format of [SpecFloat] ([spec_float] with
      [prec = 53], [emax = 1024]); [float(s)] rounds the decimal numeral to
      the nearest double, ties to even, through [SFdiv].
    - the document is the tree BeautifulSoup builds: elements ([Tag]) and
      text nodes ([NavigableString]).
    - exceptions are an error monad ([Ok] / [Raise]); the dynamically typed
      value that travels from [extract_price_from_cell] to [parse_price]
      is a [pyval].
    - the result dictionary is a [gmap string CommodityPrice.t].
    - an element is told from an equal one elsewhere in the document by
      its position, the child indices leading to it ([Position]).
    Logging has no effect on any returned value; it is left out of
    [CommodityScraper] and modelled apart, in [Log]. *)

From Stdlib Require Import ZArith String Ascii List Bool Lia SpecFloat QArith.
From stdpp Require Import gmap strings list.

Local Open Scope string_scope.

(** ** Characters and strings *)

Module PyStr.

Definition code (c : ascii) : nat := nat_of_ascii c.

Definition between (lo hi : nat) (c : ascii) : bool :=
  (lo <=? code c)%nat && (code c <=? hi)%nat.

Definition code_is (n : nat) (c : ascii) : bool := (code c =? n)%nat.

(** [str.isspace], which is also [\s] and what [str.strip] removes: TAB,
    LF, VT, FF, CR, the separators FS, GS, RS, US, the space, NEL and the
    no-break space. *)
Definition is_space (c : ascii) : bool :=
  between 9 13 c || between 28 32 c || code_is 133 c || code_is 160 c.

(** [\d], [str.isdecimal] *)
Definition is_digit (c : ascii) : bool := between 48 57 c.

Definition is_ascii_upper (c : ascii) : bool := between 65 90 c.

Definition is_ascii_lower (c : ascii) : bool := between 97 122 c.

(** The letters above 127: the two ordinal indicators, the micro sign, and
    the accented letters (all of 192-255 but the signs at 215 and 247). *)
Definition is_latin_letter (c : ascii) : bool :=
  code_is 170 c || code_is 181 c || code_is 186 c ||
  between 192 214 c || between 216 246 c || between 248 255 c.

(** The numeric characters above 127: superscripts and vulgar fractions. *)
Definition is_latin_numeric (c : ascii) : bool :=
  code_is 178 c || code_is 179 c || code_is 185 c || between 188 190 c.

(** [\w]: [str.isalnum] or the underscore. *)
Definition is_word (c : ascii) : bool :=
  is_digit c || is_ascii_upper c || is_ascii_lower c ||
  is_latin_letter c || is_latin_numeric c || Ascii.eqb c "_".

(** The capitals: A-Z, and 192-222 but the multiplication sign. *)
Definition is_upper (c : ascii) : bool :=
  is_ascii_upper c || between 192 214 c || between 216 222 c.

Definition lower_char (c : ascii) : ascii :=
  if is_upper c then ascii_of_nat (code c + 32) else c.

Fixpoint str_map (f : ascii -> ascii) (s : string) : string :=
  match s with
  | EmptyString => EmptyString
  | String c s' => String (f c) (str_map f s')
  end.

(** [s.lower()]: on the code points 0-255 lowering goes character by
    character (beyond them it does not always: U+0130 lowers to two
    characters). *)
Definition lower (s : string) : string := str_map lower_char s.

Fixpoint str_forall (p : ascii -> bool) (s : string) : bool :=
  match s with
  | EmptyString => true
  | String c s' => p c && str_forall p s'
  end.

Fixpoint str_exists (p : ascii -> bool) (s : string) : bool :=
  match s with
  | EmptyString => false
  | String c s' => p c || str_exists p s'
  end.

Fixpoint str_filter (p : ascii -> bool) (s : string) : string :=
  match s with
  | EmptyString => EmptyString
  | String c s' => if p c then String c (str_filter p s') else str_filter p s'
  end.

Definition is_empty (s : string) : bool :=
  match s with EmptyString => true | _ => false end.

Fixpoint lstrip_by (p : ascii -> bool) (s : string) : string :=
  match s with
  | EmptyString => EmptyString
  | String c s' => if p c then lstrip_by p s' else s
  end.

Fixpoint rstrip_by (p : ascii -> bool) (s : string) : string :=
  match s with
  | EmptyString => EmptyString
  | String c s' =>
      match rstrip_by p s' with
      | EmptyString => if p c then EmptyString else String c EmptyString
      | r => String c r
      end
  end.

(** The first character, if any, is outside [p]. *)
Definition no_lead (p : ascii -> bool) (s : string) : bool :=
  match s with
  | EmptyString => true
  | String c _ => negb (p c)
  end.

(** [s.strip()]: leading and trailing whitespace removed. *)
Definition strip (s : string) : string := rstrip_by is_space (lstrip_by is_space s).

Fixpoint starts_with (p s : string) : bool :=
  match p, s with
  | EmptyString, _ => true
  | String a p', String b s' => Ascii.eqb a b && starts_with p' s'
  | String _ _, EmptyString => false
  end.

(** [sub in s] *)
Fixpoint str_in (sub s : string) : bool :=
  starts_with sub s ||
  match s with
  | EmptyString => false
  | String _ s' => str_in sub s'
  end.

(** [s.replace(old, new)] for a one-character [old]. *)
Fixpoint replace_char (old : ascii) (new : string) (s : string) : string :=
  match s with
  | EmptyString => EmptyString
  | String c s' =>
      if Ascii.eqb c old then new +:+ replace_char old new s'
      else String c (replace_char old new s')
  end.

End PyStr.

(** ** The fragment of [re] the scraper uses *)

Module Re.
Import PyStr.

(** The items of a bracketed character class. *)
Inductive item :=
| Digit              (* \d *)
| Word               (* \w *)
| Space              (* \s *)
| Lit (c : ascii).   (* a literal character *)

Definition item_matches (i : item) (c : ascii) : bool :=
  match i with
  | Digit => is_digit c
  | Word => is_word c
  | Space => is_space c
  | Lit a => Ascii.eqb c a
  end.

(** [[...]] *)
Definition in_class (cls : list item) (c : ascii) : bool :=
  existsb (fun i => item_matches i c) cls.

(** [re.sub('[^...]', repl, s)]: every character outside the class is
    replaced by [repl]. *)
Fixpoint sub_not_in (cls : list item) (repl : string) (s : string) : string :=
  match s with
  | EmptyString => EmptyString
  | String c s' =>
      if in_class cls c then String c (sub_not_in cls repl s')
      else repl +:+ sub_not_in cls repl s'
  end.

(** [re.split('a|b|...', s)] for an alternation of single characters:
    the pieces between the separators, never an empty list. *)
Fixpoint split (seps : list item) (s : string) : list string :=
  match s with
  | EmptyString => [EmptyString]
  | String c s' =>
      if in_class seps c then EmptyString :: split seps s'
      else match split seps s' with
           | piece :: rest => String c piece :: rest
           | [] => [String c EmptyString]
           end
  end.

(** [re.search('[...]+', s)] as a truth value. *)
Definition search_class (cls : list item) (s : string) : bool :=
  str_exists (in_class cls) s.

(** [re.compile(word, re.I).search(s)] as a truth value, for a lower-case
    literal [word]. *)
Definition search_nocase (word s : string) : bool := str_in word (lower s).

End Re.

Definition LF : ascii := ascii_of_nat 10.
Definition CR : ascii := ascii_of_nat 13.

(** ** Exceptions *)

Inductive exn := TypeError | ValueError | AttributeError | RequestException.

Inductive result (A : Type) :=
| Ok (a : A)
| Raise (e : exn).
Arguments Ok {A} a.
Arguments Raise {A} e.

#[global] Instance result_ret : MRet result := fun _ a => Ok a.

#[global] Instance result_bind : MBind result := fun _ _ k r =>
  match r with
  | Ok a => k a
  | Raise e => Raise e
  end.

(** [try: body except (e1, e2, ...): handler] *)
Definition try_except {A : Type} (body : result A) (caught : exn -> bool)
    (handler : result A) : result A :=
  match body with
  | Ok a => Ok a
  | Raise e => if caught e then handler else Raise e
  end.

(** ** Floating point: the builtin [float] on strings *)

Module PyFloat.
Import PyStr.

Definition float := spec_float.

Definition prec : Z := 53.
Definition emax : Z := 1024.

(** The double nearest to [m * 10^e10] (ties to even), signed [neg];
    a numeral too large for the format gives an infinity. *)
Definition of_decimal (neg : bool) (m : Z) (e10 : Z) : float :=
  match m with
  | Zpos p =>
      let num := (Zpos p * 10 ^ Z.max e10 0)%Z in
      let den := (10 ^ Z.max (- e10) 0)%Z in
      SFdiv prec emax (S754_finite neg (Z.to_pos num) 0)
                      (S754_finite false (Z.to_pos den) 0)
  | _ => S754_zero neg
  end.

(** The C-locale [isspace] that [float] strips with. *)
Definition is_c_space (c : ascii) : bool := between 9 13 c || Ascii.eqb c " ".

Definition digit_val (c : ascii) : Z := Z.of_nat (code c - 48).

Fixpoint digits_value (acc : Z) (s : string) : Z :=
  match s with
  | EmptyString => acc
  | String c s' => digits_value (10 * acc + digit_val c) s'
  end.

(** The longest prefix of digits, and what follows it. *)
Fixpoint span_digits (s : string) : string * string :=
  match s with
  | String c s' =>
      if is_digit c then let '(d, r) := span_digits s' in (String c d, r)
      else (EmptyString, s)
  | EmptyString => (EmptyString, EmptyString)
  end.

Definition take_sign (s : string) : bool * string :=
  match s with
  | String c s' =>
      if Ascii.eqb c "-" then (true, s')
      else if Ascii.eqb c "+" then (false, s')
      else (false, s)
  | EmptyString => (false, s)
  end.

(** Digit-group underscores: each must stand between two digits; they
    are then dropped. [prev] is the character before [s]. *)
Fixpoint drop_underscores (prev : option ascii) (s : string) : option string :=
  let after_digit := match prev with Some p => is_digit p | None => false end in
  match s with
  | EmptyString =>
      match prev with
      | Some p => if Ascii.eqb p "_" then None else Some EmptyString
      | None => Some EmptyString
      end
  | String c s' =>
      if Ascii.eqb c "_" then
        if after_digit then drop_underscores (Some c) s' else None
      else
        match prev with
        | Some p =>
            if Ascii.eqb p "_" && negb (is_digit c) then None
            else option_map (String c) (drop_underscores (Some c) s')
        | None => option_map (String c) (drop_underscores (Some c) s')
        end
  end.

(** [digits? (. digits?)? ([eE] [+-]? digits)?] with at least one digit
    before the exponent: the mantissa as an integer and the power of ten. *)
Definition parse_decimal (s : string) : option (Z * Z) :=
  let '(ip, r1) := span_digits s in
  let '(fp, r2) :=
    match r1 with
    | String c r => if Ascii.eqb c "." then span_digits r else (EmptyString, r1)
    | EmptyString => (EmptyString, r1)
    end in
  if is_empty ip && is_empty fp then None
  else
    let m := digits_value 0 (ip +:+ fp) in
    let scale := (- Z.of_nat (String.length fp))%Z in
    match r2 with
    | EmptyString => Some (m, scale)
    | String c r3 =>
        if Ascii.eqb c "e" || Ascii.eqb c "E" then
          let '(eneg, r4) := take_sign r3 in
          let '(ed, r5) := span_digits r4 in
          if is_empty ed || negb (is_empty r5) then None
          else
            let e := digits_value 0 ed in
            Some (m, ((if eneg then - e else e) + scale)%Z)
        else None
    end.

(** What [float] does to a string that is not all below 128 before it
    reads it: a whitespace character above 126 becomes a space, and the
    first other character above 126 becomes a question mark, where the
    string is cut. *)
Fixpoint transform_to_ascii (s : string) : string :=
  match s with
  | EmptyString => EmptyString
  | String c s' =>
      if (code c <? 127)%nat then String c (transform_to_ascii s')
      else if is_space c then String " " (transform_to_ascii s')
      else String "?" EmptyString
  end.

Definition is_ascii (s : string) : bool := str_forall (fun c => (code c <? 128)%nat) s.

(** [float(s)] for a [str] argument. *)
Definition of_string (s : string) : result float :=
  let a := if is_ascii s then s else transform_to_ascii s in
  let t := rstrip_by is_c_space (lstrip_by is_c_space a) in
  match drop_underscores None t with
  | None => Raise ValueError
  | Some u =>
      let '(neg, body) := take_sign u in
      let l := lower body in
      if String.eqb l "inf" || String.eqb l "infinity" then Ok (S754_infinity neg)
      else if String.eqb l "nan" then Ok S754_nan
      else
        match parse_decimal body with
        | Some (m, e10) => Ok (of_decimal neg m e10)
        | None => Raise ValueError
        end
  end.

(** [x >= 0.0] *)
Definition nonneg (x : float) : bool := SFleb (S754_zero false) x.

(** [math.isfinite(x)] *)
Definition is_finite (x : float) : bool :=
  match x with
  | S754_zero _ | S754_finite _ _ _ => true
  | S754_infinity _ | S754_nan => false
  end.

(** The rational a finite double stands for. *)
Definition to_Q (x : float) : option Q :=
  match x with
  | S754_zero _ => Some 0%Q
  | S754_finite s m e =>
      let v := if (0 <=? e)%Z then inject_Z (Zpos m * 2 ^ e)
               else (Zpos m # Z.to_pos (2 ^ (- e))) in
      Some (if s then Qopp v else v)
  | _ => None
  end.

(** The characters [parse_price] leaves in the string it hands to
    [float]. *)
Definition numeral_char (c : ascii) : bool := is_digit c || Ascii.eqb c ".".

(** [x] is the finite double whose value is the rational [q]. *)
Definition represents (x : float) (q : Q) : Prop :=
  match to_Q x with
  | Some v => Qeq v q
  | None => False
  end.

End PyFloat.

(** ** The document tree BeautifulSoup builds *)

Module Bs4.
Import PyStr.

#[warnings="-register-all"]
Inductive node :=
| NavigableString (s : string)
| Tag (name : string) (attrs : list (string * string)) (children : list node).

(** [tag.descendants]: every node below [tag], in document order. *)
Fixpoint descendants (n : node) : list node :=
  match n with
  | NavigableString _ => []
  | Tag _ _ cs =>
      (fix below (l : list node) : list node :=
         match l with
         | [] => []
         | c :: l' => c :: descendants c ++ below l'
         end) cs
  end.

Definition is_tag (names : list string) (n : node) : bool :=
  match n with
  | Tag nm _ _ => existsb (String.eqb nm) names
  | NavigableString _ => false
  end.

Fixpoint attr_get (key : string) (attrs : list (string * string)) : option string :=
  match attrs with
  | [] => None
  | (k, v) :: rest => if String.eqb k key then Some v else attr_get key rest
  end.

(** [tag.find_all(name)] and [tag.find_all([name, ...])] *)
Definition find_all (names : list string) (n : node) : list node :=
  List.filter (is_tag names) (descendants n).

(** [tag.find(...)]: the first descendant element the filter accepts. *)
Definition find (accepts : node -> bool) (n : node) : option node :=
  head (List.filter accepts (descendants n)).

(** The filter of [find(id=value)]. *)
Definition id_is (value : string) (n : node) : bool :=
  match n with
  | Tag _ attrs _ =>
      match attr_get "id" attrs with
      | Some v => String.eqb v value
      | None => false
      end
  | NavigableString _ => false
  end.

(** The filter of [find(class_=re.compile(word, re.I))]: some class token
    contains [word]; as [word] has no blank, that is the whole attribute
    containing it. *)
Definition class_search (word : string) (n : node) : bool :=
  match n with
  | Tag _ attrs _ =>
      match attr_get "class" attrs with
      | Some v => Re.search_nocase word v
      | None => false
      end
  | NavigableString _ => false
  end.

(** The strings [get_text(strip=True)] joins: each text node below the
    tag, stripped, the empty ones skipped. *)
Definition all_strings (n : node) : list string :=
  flat_map (fun d =>
              match d with
              | NavigableString s =>
                  let t := strip s in if is_empty t then [] else [t]
              | Tag _ _ _ => []
              end) (descendants n).

(** [tag.get_text(strip=True)] *)
Definition get_text (n : node) : string := String.concat "" (all_strings n).

End Bs4.

(** ** The data model *)

Definition datetime := Z.

Module CommodityPrice.

Record t := mk {
  name : string;
  price : PyFloat.float;
  timestamp : datetime;
  currency : string;
  unit : string
}.

(** [CommodityPrice(name=..., price=..., timestamp=...)] with the two
    defaulted fields. *)
Definition new (n : string) (p : PyFloat.float) (ts : datetime) : t :=
  {| name := n; price := p; timestamp := ts;
     currency := "USD"; unit := "per tonne" |}.

End CommodityPrice.

(** What [extract_price_from_cell] hands to [parse_price]. *)
Inductive pyval :=
| PyNone
| PyStr (s : string)
| PyTag (t : Bs4.node).

(** Python truth value: [None] and the empty string are false, an element
    is always true. *)
Definition truthy (v : pyval) : bool :=
  match v with
  | PyNone => false
  | PyStr s => negb (PyStr.is_empty s)
  | PyTag _ => true
  end.

(** A [for] loop over [l] whose body may raise. *)
Fixpoint for_each {A S : Type} (l : list A) (body : S -> A -> result S) (s : S)
    : result S :=
  match l with
  | [] => Ok s
  | a :: l' => s' ← body s a; for_each l' body s'
  end.

(** ** The scraper *)

Module CommodityScraper.
Import PyStr Bs4.

Record t := { target_commodities : list string }.

Definition default_targets : list string := ["Lithium"; "Lead"; "Cobalt"].

(** [__init__]: [target_commodities or [...]]. *)
Definition init (targets : option (list string)) : t :=
  match targets with
  | Some (x :: l) => {| target_commodities := x :: l |}
  | Some [] | None => {| target_commodities := default_targets |}
  end.

Definition of_found (o : option node) : pyval :=
  match o with
  | Some e => PyTag e
  | None => PyNone
  end.

Definition strategy_id (c : node) : pyval := of_found (find (id_is "p") c).

Definition strategy_class (c : node) : pyval := of_found (find (class_search "price") c).

Definition strategy_inline (c : node) : pyval :=
  let texts :=
    map get_text (flat_map (fun tag => find_all [tag] c) ["span"; "div"; "strong"]) in
  match head (List.filter (Re.search_class [Re.Digit]) texts) with
  | Some s => PyStr s
  | None => PyNone
  end.

Definition strategy_text (c : node) : pyval := PyStr (get_text c).

Definition strategies : list (node -> pyval) :=
  [strategy_id; strategy_class; strategy_inline; strategy_text].

Fixpoint first_truthy (l : list (node -> pyval)) (cell : node) : pyval :=
  match l with
  | [] => PyNone
  | strategy :: rest =>
      let result := strategy cell in
      if truthy result then result else first_truthy rest cell
  end.

Definition extract_price_from_cell (price_cell : node) : pyval :=
  first_truthy strategies price_cell.

Definition clean_commodity_name (raw_name : string) : string :=
  let name := strip (List.hd EmptyString (Re.split [Re.Lit LF; Re.Lit CR] raw_name)) in
  strip (Re.sub_not_in [Re.Word; Re.Space; Re.Lit "-"] "" name).

(** [re.sub] accepts a string only. *)
Definition re_subject (v : pyval) : result string :=
  match v with
  | PyStr s => Ok s
  | PyNone | PyTag _ => Raise TypeError
  end.

Definition parse_price (price_text : pyval) : result (option PyFloat.float) :=
  try_except
    (s ← re_subject price_text;
     let clean := replace_char "," "" (Re.sub_not_in [Re.Digit; Re.Lit "."; Re.Lit ","] "" s) in
     if is_empty clean then Ok None
     else x ← PyFloat.of_string clean; Ok (Some x))
    (fun e => match e with ValueError | AttributeError => true | _ => false end)
    (Ok None).

Fixpoint first_target (targets : list string) (name : string) : option string :=
  match targets with
  | [] => None
  | target :: rest =>
      if str_in (lower target) (lower name) then Some target
      else first_target rest name
  end.

Definition is_target_commodity (self : t) (name : string) : option string :=
  first_target (target_commodities self) name.

(** The body of the inner loop of [scrape_all_tables]. *)
Definition scan_row (self : t) (timestamp : datetime)
    (results : gmap string CommodityPrice.t) (row : node)
    : result (gmap string CommodityPrice.t) :=
  match find_all ["td"; "th"] row with
  | label_cell :: price_cell :: _ =>
      let raw_name := get_text label_cell in
      let name := clean_commodity_name raw_name in
      match is_target_commodity self name with
      | None => Ok results
      | Some target =>
          if is_empty target then Ok results
          else
            let price_text := extract_price_from_cell price_cell in
            price_value ← parse_price price_text;
            match price_value with
            | Some p => Ok (<[target := CommodityPrice.new target p timestamp]> results)
            | None => Ok results
            end
      end
  | _ => Ok results
  end.

(** The body of the outer loop. *)
Definition scan_table (self : t) (timestamp : datetime)
    (results : gmap string CommodityPrice.t) (table : node)
    : result (gmap string CommodityPrice.t) :=
  let rows := find_all ["tr"] table in
  if (List.length rows <? 2)%nat then Ok results
  else for_each (List.tl rows) (scan_row self timestamp) results.

Definition scrape_all_tables (self : t) (soup : node) (timestamp : datetime)
    : result (gmap string CommodityPrice.t) :=
  let tables := find_all ["table"] soup in
  for_each tables (scan_table self timestamp) ∅.

(** [fetch_page] is the outcome of the HTTP request; [now] is the clock
    reading [scrape_all_tables] takes. *)
Definition scrape_commodities (self : t) (fetch_page : result node) (now : datetime)
    : gmap string CommodityPrice.t :=
  match soup ← fetch_page; scrape_all_tables self soup now with
  | Ok prices => prices
  | Raise _ => ∅
  end.

End CommodityScraper.

(** ** Vocabulary for the scan *)

Module Scan.
Import Bs4 CommodityScraper.

(** The rows the scan visits, in the order it visits them: table after
    table in document order, each table's rows but the first, when the
    table has two rows or more. *)
Definition data_rows (soup : node) : list node :=
  flat_map (fun table =>
              let rows := find_all ["tr"] table in
              if (List.length rows <? 2)%nat then [] else List.tl rows)
           (find_all ["table"] soup).

(** The target a row's label matches together with the price its price
    cell parses to, when the row has both. *)
Definition row_quote (self : CommodityScraper.t) (row : node)
    : option (string * PyFloat.float) :=
  match find_all ["td"; "th"] row with
  | label_cell :: price_cell :: _ =>
      match is_target_commodity self (clean_commodity_name (get_text label_cell)),
            parse_price (extract_price_from_cell price_cell) with
      | Some target, Ok (Some p) => Some (target, p)
      | _, _ => None
      end
  | _ => None
  end.

(** What holds of every record of the mapping all along the scan. *)
Definition well_formed (self : CommodityScraper.t)
    (results : gmap string CommodityPrice.t) : Prop :=
  forall key record,
    results !! key = Some record ->
    In key (target_commodities self) /\
    CommodityPrice.name record = key /\
    PyFloat.nonneg (CommodityPrice.price record) = true.

End Scan.

(** ** Sample documents *)

Module Samples.
Import Bs4.

Definition cell (children : list node) : node := Tag "td" [] children.

Definition text_cell (s : string) : node := cell [NavigableString s].

Definition row (label price : string) : node :=
  Tag "tr" [] [text_cell label; text_cell price].

Definition header : node := row "Commodity" "Price".

Definition table (rows : list node) : node := Tag "table" [] rows.

Definition page (tables : list node) : node := Tag "[document]" [] tables.

Definition scraper : CommodityScraper.t := CommodityScraper.init None.

(** [<td></td>] *)
Definition empty_cell : node := cell [].

(** A row for a target whose price cell is empty. *)
Definition row_without_price : node := Tag "tr" [] [text_cell "Lead"; empty_cell].

Definition page_before_failure : node :=
  page [table [header; row "Lithium" "100"]].

Definition page_with_failure : node :=
  page [table [header; row "Lithium" "100"; row_without_price]].

(** A one followed by 309 zeros. *)
Definition huge_numeral : string :=
  String "1" (string_of_list_ascii (repeat "0"%char 309)).

Definition page_with_huge_price : node :=
  page [table [header; row "Lead" huge_numeral]].

Definition blank_target_scraper : CommodityScraper.t :=
  CommodityScraper.init (Some [""]).

Definition two_tables : node :=
  page [table [header; row "Lead" "5"; row "Cobalt ore" "7"];
        table [header; row "lead (LME)" "6"; row "Gold" "9"]].

Definition header_only : node := table [row "Lead" "5"].

(** The doubles 5.0 and 6.0. *)
Definition five : PyFloat.float := S754_finite false 5629499534213120 (-50).
Definition six : PyFloat.float := S754_finite false 6755399441055744 (-50).

End Samples.

(** ** The specification's wording

    Second definitions of the text operations, written after the prose of
    the specification, to be compared with the code above. *)

Module Spec.
Import PyStr.

Definition is_line_break (c : ascii) : bool := Ascii.eqb c LF || Ascii.eqb c CR.

(** "the text preceding the first line break" *)
Fixpoint before_line_break (s : string) : string :=
  match s with
  | EmptyString => EmptyString
  | String c s' => if is_line_break c then EmptyString else String c (before_line_break s')
  end.

Fixpoint drop_while (p : ascii -> bool) (l : list ascii) : list ascii :=
  match l with
  | [] => []
  | c :: l' => if p c then drop_while p l' else l
  end.

(** "trim surrounding whitespace" *)
Definition trim (s : string) : string :=
  string_of_list_ascii
    (rev (drop_while is_space (rev (drop_while is_space (list_ascii_of_string s))))).

(** "word characters, whitespace, and hyphens" *)
Definition label_char (c : ascii) : bool := is_word c || is_space c || Ascii.eqb c "-".

(** The three cleaning steps in the order the specification lists them. *)
Definition clean (raw_label : string) : string :=
  str_filter label_char (trim (before_line_break raw_label)).

(** "a digit, a period, or a comma" *)
Definition price_char (c : ascii) : bool := is_digit c || Ascii.eqb c "." || Ascii.eqb c ",".

Definition not_comma (c : ascii) : bool := negb (Ascii.eqb c ",").

(** "remove every character that is not a digit, a period, or a comma;
    remove commas entirely; if the remaining string is empty, fail;
    otherwise parse as a floating-point number" *)
Definition parse (raw_text : string) : option PyFloat.float :=
  let remainder := str_filter not_comma (str_filter price_char raw_text) in
  if is_empty remainder then None
  else match PyFloat.of_string remainder with
       | Ok x => Some x
       | Raise _ => None
       end.

(** "its lowercase form appears anywhere inside the lowercase cleaned label" *)
Definition appears_in (target label : string) : Prop :=
  exists before after : string, lower label = before +:+ lower target +:+ after.

End Spec.

(** ** Outcomes of a row, and further vocabulary *)

Module Outcome.
Import PyStr Bs4 CommodityScraper.

Definition is_text (v : pyval) : bool :=
  match v with
  | PyStr _ => true
  | PyNone | PyTag _ => false
  end.

(** An element the first two strategies look for: one whose [id] is [p] or
    whose [class] contains [price]. *)
Definition marked (n : node) : bool := id_is "p" n || class_search "price" n.

(** The row matches a non-empty target and its price cell yields no
    string. *)
Definition row_aborts (self : CommodityScraper.t) (row : node) : bool :=
  match find_all ["td"; "th"] row with
  | label_cell :: price_cell :: _ =>
      match is_target_commodity self (clean_commodity_name (get_text label_cell)) with
      | Some target =>
          negb (is_empty target) && negb (is_text (extract_price_from_cell price_cell))
      | None => false
      end
  | _ => false
  end.

(** The same record at another time. *)
Definition retime (ts : datetime) (r : CommodityPrice.t) : CommodityPrice.t :=
  {| CommodityPrice.name := CommodityPrice.name r;
     CommodityPrice.price := CommodityPrice.price r;
     CommodityPrice.timestamp := ts;
     CommodityPrice.currency := CommodityPrice.currency r;
     CommodityPrice.unit := CommodityPrice.unit r |}.

(** How many characters of [s] are in [p]. *)
Fixpoint str_count (p : ascii -> bool) (s : string) : nat :=
  match s with
  | EmptyString => 0
  | String c s' => (if p c then 1 else 0) + str_count p s'
  end.

Definition is_period (c : ascii) : bool := Ascii.eqb c ".".

(** A text that holds a digit or a period and yet spells no numeral: it
    has no digit, or two periods or more. *)
Definition malformed (s : string) : bool :=
  str_exists PyFloat.numeral_char s &&
  negb (str_exists is_digit s && (str_count is_period s <=? 1)%nat).

(** The price text of a row that matches a non-empty target, when that
    text is a malformed numeral. *)
Definition row_warning (self : CommodityScraper.t) (row : node) : option pyval :=
  match find_all ["td"; "th"] row with
  | label_cell :: price_cell :: _ =>
      match is_target_commodity self (clean_commodity_name (get_text label_cell)) with
      | Some target =>
          if is_empty target then None
          else match extract_price_from_cell price_cell with
               | PyStr text => if malformed text then Some (PyStr text) else None
               | PyNone | PyTag _ => None
               end
      | None => None
      end
  | _ => None
  end.

(** The last character, if any, is outside [p]. *)
Fixpoint no_trail (p : ascii -> bool) (s : string) : bool :=
  match s with
  | EmptyString => true
  | String c EmptyString => negb (p c)
  | String _ s' => no_trail p s'
  end.

(** A character a cleaned label can hold: a word character, whitespace
    other than LF and CR, or a hyphen. *)
Definition cleaned_char (c : ascii) : bool :=
  Spec.label_char c && negb (Spec.is_line_break c).

End Outcome.

(** ** The scraper with its log

    The same functions with what they hand to [self.logger]: a logged
    computation is the list of records it wrote, in order, with how it
    ended. The text of a message is left out; a record keeps the values
    the message is formatted from. *)

Module Log.
Import PyStr Bs4.

Inductive level := ERROR | WARNING.

Inductive event :=
| FailedToFetch (e : exn)                    (* "Failed to fetch page: {e}" *)
| CouldNotParse (price_text : pyval)         (* "Could not parse price: {price_text}" *)
| MissingCommodities (missing : gset string) (* "Missing commodities: {missing}" *)
| ScrapingFailed (e : exn).                  (* "Scraping failed: {e}" *)

Definition level_of (ev : event) : level :=
  match ev with
  | FailedToFetch _ | ScrapingFailed _ => ERROR
  | CouldNotParse _ | MissingCommodities _ => WARNING
  end.

Definition logged (A : Type) : Type := list event * result A.

(** [fetch_page]: [outcome] is what the request and the parser give; a
    [RequestException] is logged and raised again, anything else passes. *)
Definition fetch_page (outcome : result node) : logged node :=
  match outcome with
  | Raise RequestException => ([FailedToFetch RequestException], Raise RequestException)
  | Raise e => ([], Raise e)
  | Ok soup => ([], Ok soup)
  end.

Definition parse_price (price_text : pyval) : logged (option PyFloat.float) :=
  let body : result (option PyFloat.float) :=
    s ← CommodityScraper.re_subject price_text;
    let clean :=
      replace_char "," "" (Re.sub_not_in [Re.Digit; Re.Lit "."; Re.Lit ","] "" s) in
    if is_empty clean then Ok None
    else x ← PyFloat.of_string clean; Ok (Some x) in
  match body with
  | Ok v => ([], Ok v)
  | Raise ValueError | Raise AttributeError => ([CouldNotParse price_text], Ok None)
  | Raise e => ([], Raise e)
  end.

Fixpoint for_each {A S : Type} (l : list A) (body : S -> A -> logged S) (s : S)
    : logged S :=
  match l with
  | [] => ([], Ok s)
  | a :: l' =>
      match body s a with
      | (written, Ok s') =>
          let '(written', r) := for_each l' body s' in ((written ++ written')%list, r)
      | (written, Raise e) => (written, Raise e)
      end
  end.

Definition scan_row (self : CommodityScraper.t) (timestamp : datetime)
    (results : gmap string CommodityPrice.t) (row : node)
    : logged (gmap string CommodityPrice.t) :=
  match find_all ["td"; "th"] row with
  | label_cell :: price_cell :: _ =>
      let raw_name := get_text label_cell in
      let name := CommodityScraper.clean_commodity_name raw_name in
      match CommodityScraper.is_target_commodity self name with
      | None => ([], Ok results)
      | Some target =>
          if is_empty target then ([], Ok results)
          else
            let price_text := CommodityScraper.extract_price_from_cell price_cell in
            match parse_price price_text with
            | (written, Ok (Some p)) =>
                (written, Ok (<[target := CommodityPrice.new target p timestamp]> results))
            | (written, Ok None) => (written, Ok results)
            | (written, Raise e) => (written, Raise e)
            end
      end
  | _ => ([], Ok results)
  end.

Definition scan_table (self : CommodityScraper.t) (timestamp : datetime)
    (results : gmap string CommodityPrice.t) (table : node)
    : logged (gmap string CommodityPrice.t) :=
  let rows := find_all ["tr"] table in
  if (List.length rows <? 2)%nat then ([], Ok results)
  else for_each (List.tl rows) (scan_row self timestamp) results.

Definition scrape_all_tables (self : CommodityScraper.t) (soup : node)
    (timestamp : datetime) : logged (gmap string CommodityPrice.t) :=
  let tables := find_all ["table"] soup in
  for_each tables (scan_table self timestamp) ∅.

(** [scrape_commodities]: the log of the run and the mapping it returns. *)
Definition scrape_commodities (self : CommodityScraper.t) (outcome : result node)
    (now : datetime) : list event * gmap string CommodityPrice.t :=
  match fetch_page outcome with
  | (fetching, Raise e) => ((fetching ++ [ScrapingFailed e])%list, ∅)
  | (fetching, Ok soup) =>
      match scrape_all_tables self soup now with
      | (scanning, Ok prices) =>
          let found : gset string := dom prices in
          let missing : gset string :=
            list_to_set (CommodityScraper.target_commodities self) ∖ found in
          ((fetching ++ scanning ++
              (if decide (missing = ∅) then [] else [MissingCommodities missing]))%list,
           prices)
      | (scanning, Raise e) => ((fetching ++ scanning ++ [ScrapingFailed e])%list, ∅)
      end
  end.

End Log.

(** ** More sample documents *)

Module MoreSamples.

(** A price with two periods, then a good one, then a text with no
    numeral in it. *)
Definition page_with_bad_numeral : Bs4.node :=
  Samples.page [Samples.table [Samples.header; Samples.row "Lead" "1.2.3";
                               Samples.row "Cobalt" "7"; Samples.row "Lithium" "N/A"]].

End MoreSamples.

(** ** Elements by position

    Two elements of a document can be equal as trees and still be two
    objects.  An element is told from its equals by its position: the
    child indices that lead to it from the root. *)

Module Position.
Import Bs4.

Definition path := list nat.

Definition under (i : nat) (pd : path * node) : path * node := (i :: fst pd, snd pd).

Definition below (located : node -> list (path * node))
    : nat -> list node -> list (path * node) :=
  fix go (i : nat) (l : list node) : list (path * node) :=
    match l with
    | [] => []
    | c :: l' => ([i], c) :: (map (under i) (located c) ++ go (S i) l')%list
    end.

(** [tag.descendants] with the position of each node, relative to [tag]. *)
Fixpoint located (n : node) : list (path * node) :=
  match n with
  | NavigableString _ => []
  | Tag _ _ cs => below located 0%nat cs
  end.

(** The node at a position. *)
Fixpoint node_at (n : node) (p : path) : option node :=
  match p with
  | [] => Some n
  | i :: p' =>
      match n with
      | Tag _ _ cs =>
          match nth_error cs i with
          | Some c => node_at c p'
          | None => None
          end
      | NavigableString _ => None
      end
  end.

(** [tag.find_all(names)], each element with its position. *)
Definition find_all_at (names : list string) (n : node) : list (path * node) :=
  List.filter (fun pd => is_tag names (snd pd)) (located n).

Definition from (p : path) (qd : path * node) : path * node := ((p ++ fst qd)%list, snd qd).

(** The rows the scan visits, each with its position in the document:
    [rows[1:]] of every table with two rows or more. *)
Definition data_rows_at (soup : node) : list (path * node) :=
  flat_map (fun pt =>
              let rows := find_all_at ["tr"] (snd pt) in
              if (List.length rows <? 2)%nat then []
              else map (from (fst pt)) (List.tl rows))
           (find_all_at ["table"] soup).

(** Some table of the document lies inside another. *)
Definition tables_nested (soup : node) : bool :=
  existsb (fun table => negb (List.length (find_all ["table"] table) =? 0)%nat)
          (find_all ["table"] soup).

(** A table whose only row is itself inside the second row of another
    table. *)
Definition page_with_nested_table : node :=
  Samples.page
    [Samples.table [Samples.header; Tag "tr" [] [Samples.cell [Samples.header_only]]]].

(** The same page, the inner table without its row. *)
Definition page_with_empty_nested_table : node :=
  Samples.page
    [Samples.table [Samples.header; Tag "tr" [] [Samples.cell [Samples.table []]]]].

End Position.

(** * Properties *)

(** ** The model at work *)

Example float_samples :
  PyFloat.of_string "1234.50" = Ok (S754_finite false 5429388417957888 (-42)) /\
  PyFloat.of_string " -2.5e1 " = Ok (S754_finite true 7036874417766400 (-48)) /\
  PyFloat.of_string "1_000." = PyFloat.of_string "1000" /\
  PyFloat.of_string ".5" = Ok (S754_finite false 4503599627370496 (-53)) /\
  PyFloat.of_string "0.1" = Ok (S754_finite false 7205759403792794 (-56)) /\
  PyFloat.of_string "9007199254740993" = Ok (S754_finite false 4503599627370496 1) /\
  PyFloat.of_string "4.9e-324" = Ok (S754_finite false 1 (-1074)) /\
  PyFloat.of_string "1e308" = Ok (S754_finite false 5010420900022432 971) /\
  PyFloat.of_string "1e309" = Ok (S754_infinity false) /\
  PyFloat.of_string "-Infinity" = Ok (S754_infinity true) /\
  PyFloat.of_string "0" = Ok (S754_zero false) /\
  PyFloat.of_string (String (ascii_of_nat 160) "5") = PyFloat.of_string "5" /\
  PyFloat.of_string (String (ascii_of_nat 178) "5") = Raise ValueError /\
  PyFloat.of_string "." = Raise ValueError /\
  PyFloat.of_string "1.2.3" = Raise ValueError /\
  PyFloat.of_string "1_" = Raise ValueError /\
  PyFloat.of_string "" = Raise ValueError.
Proof. vm_compute. repeat split. Qed.

Example text_samples :
  PyStr.strip "  a b  " = "a b" /\
  PyStr.strip (String (ascii_of_nat 160) "a ") = "a" /\
  PyStr.lower (String (ascii_of_nat 201) "T") = String (ascii_of_nat 233) "t" /\
  PyStr.lower "COBALT Ore-1" = "cobalt ore-1" /\
  PyStr.str_in "ore" "cobalt ore" = true /\
  PyStr.str_in "lead" "cobalt ore" = false /\
  Re.split [Re.Lit LF; Re.Lit CR] (String "a" (String LF (String CR "b"))) = ["a"; ""; "b"] /\
  CommodityScraper.clean_commodity_name
    ("  Co$balt-x (USD) " +:+ String LF "second line") = "Cobalt-x USD".
Proof. vm_compute. repeat split. Qed.

Example extract_samples :
  let priced (e : Bs4.node) := Samples.cell [e] in
  let span_p := Bs4.Tag "span" [("id", "p")] [Bs4.NavigableString "12"] in
  let bold_price := Bs4.Tag "b" [("class", "big Price-x")] [Bs4.NavigableString "12"] in
  CommodityScraper.extract_price_from_cell (priced span_p) = PyTag span_p /\
  CommodityScraper.extract_price_from_cell (priced bold_price) = PyTag bold_price /\
  CommodityScraper.extract_price_from_cell
    (Samples.cell [Bs4.Tag "b" [] [Bs4.NavigableString "12"];
                   Bs4.Tag "div" [] [Bs4.NavigableString "d3"];
                   Bs4.Tag "span" [] [Bs4.NavigableString "abc"];
                   Bs4.Tag "span" [] [Bs4.NavigableString " s4 "]]) = PyStr "s4" /\
  CommodityScraper.extract_price_from_cell
    (Samples.cell [Bs4.Tag "span" [] [Bs4.NavigableString " 1,234.50 "]]) = PyStr "1,234.50" /\
  CommodityScraper.extract_price_from_cell (Samples.text_cell " N/A ") = PyStr "N/A".
Proof. vm_compute. repeat split. Qed.

(** ** Strings *)

Section StringFacts.
Import PyStr.
Variables p q : ascii -> bool.

Lemma lstrip_no_lead s : no_lead p (lstrip_by p s) = true.
Proof.
  induction s as [|c s IH]; simpl; [reflexivity|].
  destruct (p c) eqn:E; [exact IH|]. simpl. now rewrite E.
Qed.

Lemma lstrip_fixed s : no_lead p s = true -> lstrip_by p s = s.
Proof.
  destruct s as [|c s]; simpl; [reflexivity|].
  intros H. apply negb_true_iff in H. now rewrite H.
Qed.

Lemma rstrip_no_lead s : no_lead p s = true -> no_lead p (rstrip_by p s) = true.
Proof.
  destruct s as [|c s]; simpl; [reflexivity|].
  intros H. destruct (rstrip_by p s); simpl; [|exact H].
  apply negb_true_iff in H. rewrite H. simpl. now rewrite H.
Qed.

Lemma rstrip_idem s : rstrip_by p (rstrip_by p s) = rstrip_by p s.
Proof.
  induction s as [|c s IH]; simpl; [reflexivity|].
  destruct (rstrip_by p s) as [|d r] eqn:E.
  - destruct (p c) eqn:Ec; simpl; [reflexivity|]. now rewrite Ec.
  - change (rstrip_by p (String c (String d r)))
      with (match rstrip_by p (String d r) with
            | EmptyString => if p c then EmptyString else String c EmptyString
            | String a r' => String c (String a r')
            end).
    now rewrite IH.
Qed.

Lemma forall_lstrip s : str_forall q s = true -> str_forall q (lstrip_by p s) = true.
Proof.
  induction s as [|c s IH]; simpl; [reflexivity|].
  intros H. destruct (p c); [|exact H].
  apply andb_true_iff in H. now apply IH.
Qed.

Lemma forall_rstrip s : str_forall q s = true -> str_forall q (rstrip_by p s) = true.
Proof.
  induction s as [|c s IH]; simpl; [reflexivity|].
  intros H. apply andb_true_iff in H. destruct H as [Hc Hs].
  specialize (IH Hs). destruct (rstrip_by p s) as [|d r].
  - destruct (p c); simpl; [reflexivity|]. now rewrite Hc.
  - change (q c && str_forall q (String d r) = true). now rewrite Hc.
Qed.

Lemma forall_filter s : str_forall q (str_filter q s) = true.
Proof.
  induction s as [|c s IH]; simpl; [reflexivity|].
  destruct (q c) eqn:E; simpl; [now rewrite E|exact IH].
Qed.

Lemma forall_filter_keeps s :
  str_forall q s = true -> str_forall q (str_filter p s) = true.
Proof.
  induction s as [|c s IH]; simpl; [reflexivity|].
  intros H. apply andb_true_iff in H. destruct H as [Hc Hs].
  destruct (p c); simpl; [rewrite Hc|]; now apply IH.
Qed.

Lemma filter_fixed s : str_forall p s = true -> str_filter p s = s.
Proof.
  induction s as [|c s IH]; simpl; [reflexivity|].
  intros H. apply andb_true_iff in H. destruct H as [Hc Hs].
  rewrite Hc. now rewrite IH.
Qed.

Lemma forall_none_lstrip s :
  str_forall (fun c => negb (p c)) s = true -> lstrip_by p s = s.
Proof.
  intros H. apply lstrip_fixed. destruct s as [|c s]; simpl in *; [reflexivity|].
  now apply andb_true_iff in H.
Qed.

Lemma forall_none_rstrip s :
  str_forall (fun c => negb (p c)) s = true -> rstrip_by p s = s.
Proof.
  induction s as [|c s IH]; simpl; [reflexivity|].
  intros H. apply andb_true_iff in H. destruct H as [Hc Hs].
  rewrite (IH Hs). apply negb_true_iff in Hc. rewrite Hc. now destruct s.
Qed.

End StringFacts.

Lemma str_forall_impl (p q : ascii -> bool) s :
  (forall c, p c = true -> q c = true) ->
  PyStr.str_forall p s = true -> PyStr.str_forall q s = true.
Proof.
  intros Hpq. induction s as [|c s IH]; simpl; [reflexivity|].
  intros H. apply andb_true_iff in H. destruct H as [Hc Hs].
  rewrite (Hpq _ Hc). now apply IH.
Qed.

Lemma strip_idem s : PyStr.strip (PyStr.strip s) = PyStr.strip s.
Proof.
  unfold PyStr.strip.
  rewrite (lstrip_fixed PyStr.is_space (PyStr.rstrip_by _ _)).
  - apply rstrip_idem.
  - apply rstrip_no_lead, lstrip_no_lead.
Qed.

Lemma forall_strip q s :
  PyStr.str_forall q s = true -> PyStr.str_forall q (PyStr.strip s) = true.
Proof. intros H. now apply forall_rstrip, forall_lstrip. Qed.

(** ** The regular-expression fragment *)

Lemma append_empty_l s : EmptyString +:+ s = s.
Proof. reflexivity. Qed.

Lemma sub_is_filter cls s :
  Re.sub_not_in cls "" s = PyStr.str_filter (Re.in_class cls) s.
Proof.
  induction s as [|c s IH]; simpl; [reflexivity|].
  rewrite IH. now destruct (Re.in_class cls c).
Qed.

Lemma replace_is_filter s :
  PyStr.replace_char "," "" s = PyStr.str_filter Spec.not_comma s.
Proof.
  induction s as [|c s IH]; simpl; [reflexivity|].
  rewrite IH. unfold Spec.not_comma. now destruct (Ascii.eqb c ",").
Qed.

Lemma split_nonempty seps s : Re.split seps s <> [].
Proof.
  destruct s as [|c s]; simpl; [discriminate|].
  destruct (Re.in_class seps c); [discriminate|].
  destruct (Re.split seps s); discriminate.
Qed.

Lemma split_head_is_prefix s :
  List.hd EmptyString (Re.split [Re.Lit LF; Re.Lit CR] s) = Spec.before_line_break s.
Proof.
  induction s as [|c s IH]; simpl; [reflexivity|].
  unfold Spec.is_line_break. rewrite orb_false_r.
  destruct (Ascii.eqb c LF || Ascii.eqb c CR); [reflexivity|].
  rewrite <- IH.
  pose proof (split_nonempty [Re.Lit LF; Re.Lit CR] s) as Hne.
  destruct (Re.split [Re.Lit LF; Re.Lit CR] s); [contradiction|reflexivity].
Qed.

Lemma before_line_break_clear s :
  PyStr.str_forall (fun c => negb (Spec.is_line_break c)) (Spec.before_line_break s) = true.
Proof.
  induction s as [|c s IH]; simpl; [reflexivity|].
  destruct (Spec.is_line_break c) eqn:E; simpl; [reflexivity|]. now rewrite E.
Qed.

Lemma before_line_break_fixed s :
  PyStr.str_forall (fun c => negb (Spec.is_line_break c)) s = true ->
  Spec.before_line_break s = s.
Proof.
  induction s as [|c s IH]; simpl; [reflexivity|].
  intros H. apply andb_true_iff in H. destruct H as [Hc Hs].
  apply negb_true_iff in Hc. rewrite Hc. now rewrite IH.
Qed.

Lemma label_class c :
  Re.in_class [Re.Word; Re.Space; Re.Lit "-"] c = Spec.label_char c.
Proof. unfold Spec.label_char. simpl. now rewrite orb_false_r, orb_assoc. Qed.

Lemma price_class c :
  Re.in_class [Re.Digit; Re.Lit "."; Re.Lit ","] c = Spec.price_char c.
Proof. unfold Spec.price_char. simpl. now rewrite orb_false_r, orb_assoc. Qed.

Lemma str_filter_ext (p q : ascii -> bool) s :
  (forall c, p c = q c) -> PyStr.str_filter p s = PyStr.str_filter q s.
Proof.
  intros H. induction s as [|c s IH]; simpl; [reflexivity|].
  now rewrite H, IH.
Qed.

(** ** [strip] and the specification's trimming agree *)

Lemma drop_while_snoc p l c :
  Spec.drop_while p (l ++ [c])%list =
  match Spec.drop_while p l with
  | [] => if p c then [] else [c]
  | r => (r ++ [c])%list
  end.
Proof.
  induction l as [|a l IH]; simpl; [reflexivity|].
  destruct (p a); [exact IH|reflexivity].
Qed.

Lemma lstrip_as_list p s :
  list_ascii_of_string (PyStr.lstrip_by p s) = Spec.drop_while p (list_ascii_of_string s).
Proof.
  induction s as [|c s IH]; simpl; [reflexivity|].
  destruct (p c); [exact IH|reflexivity].
Qed.

Lemma rstrip_as_list p s :
  list_ascii_of_string (PyStr.rstrip_by p s) =
  rev (Spec.drop_while p (rev (list_ascii_of_string s))).
Proof.
  induction s as [|c s IH]; simpl; [reflexivity|].
  rewrite drop_while_snoc.
  destruct (Spec.drop_while p (rev (list_ascii_of_string s))) as [|d D] eqn:E.
  - simpl in IH. destruct (PyStr.rstrip_by p s); [|discriminate].
    now destruct (p c).
  - rewrite rev_app_distr, <- IH. change (rev [c]) with [c].
    destruct (PyStr.rstrip_by p s) as [|a r] eqn:Er; [|reflexivity].
    simpl in IH. symmetry in IH. apply app_eq_nil in IH. destruct IH; discriminate.
Qed.

Lemma trim_is_strip s : Spec.trim s = PyStr.strip s.
Proof.
  unfold Spec.trim, PyStr.strip.
  rewrite <- lstrip_as_list, <- rstrip_as_list.
  apply string_of_list_ascii_of_string.
Qed.

(** ** [clean_commodity_name] *)

Lemma clean_unfold L :
  CommodityScraper.clean_commodity_name L =
  PyStr.strip (PyStr.str_filter Spec.label_char (PyStr.strip (Spec.before_line_break L))).
Proof.
  unfold CommodityScraper.clean_commodity_name.
  rewrite split_head_is_prefix, sub_is_filter.
  f_equal. apply str_filter_ext, label_class.
Qed.

Lemma clean_no_line_break L :
  PyStr.str_forall (fun c => negb (Spec.is_line_break c))
                   (CommodityScraper.clean_commodity_name L) = true.
Proof.
  rewrite clean_unfold.
  apply forall_strip, forall_filter_keeps, forall_strip, before_line_break_clear.
Qed.

Lemma clean_label_chars L :
  PyStr.str_forall Spec.label_char (CommodityScraper.clean_commodity_name L) = true.
Proof. rewrite clean_unfold. apply forall_strip, forall_filter. Qed.

(** C8, as stated, fails: after the other characters are removed the code
    trims once more, so whitespace laid bare by the removal is gone from
    the code's result and still there in the three steps of the prose. *)
Lemma clean_differs_from_three_steps :
  CommodityScraper.clean_commodity_name "! Lead" = "Lead" /\
  Spec.clean "! Lead" = " Lead" /\
  CommodityScraper.clean_commodity_name "! Lead" <> Spec.clean "! Lead".
Proof. vm_compute. repeat split. discriminate. Qed.

(** C8, amended: [clean(L)] is the text preceding the first line break of
    [L], trimmed, with every character other than word characters,
    whitespace and hyphens removed, and then trimmed again; it contains no
    line feed or carriage return and no character outside
    word/space/hyphen. *)
Theorem clean_commodity_name_spec (L : string) :
  CommodityScraper.clean_commodity_name L = Spec.trim (Spec.clean L) /\
  PyStr.str_forall (fun c => negb (Ascii.eqb c LF || Ascii.eqb c CR))
                   (CommodityScraper.clean_commodity_name L) = true /\
  PyStr.str_forall (fun c => PyStr.is_word c || PyStr.is_space c || Ascii.eqb c "-")
                   (CommodityScraper.clean_commodity_name L) = true.
Proof.
  split; [|split].
  - rewrite clean_unfold. unfold Spec.clean. now rewrite !trim_is_strip.
  - apply clean_no_line_break.
  - apply clean_label_chars.
Qed.

(** C10: cleaning is idempotent. *)
Theorem clean_commodity_name_idempotent (L : string) :
  CommodityScraper.clean_commodity_name (CommodityScraper.clean_commodity_name L) =
  CommodityScraper.clean_commodity_name L.
Proof.
  set (R := CommodityScraper.clean_commodity_name L).
  assert (Hstrip : PyStr.strip R = R).
  { unfold R. rewrite clean_unfold. apply strip_idem. }
  rewrite (clean_unfold R).
  rewrite (before_line_break_fixed R) by apply clean_no_line_break.
  rewrite Hstrip.
  rewrite (filter_fixed Spec.label_char R) by apply clean_label_chars.
  exact Hstrip.
Qed.

(** ** Substring test and target matching *)

Lemma starts_with_app sub rest : PyStr.starts_with sub (sub +:+ rest) = true.
Proof.
  induction sub as [|a sub IH]; simpl; [reflexivity|].
  now rewrite Ascii.eqb_refl.
Qed.

Lemma starts_with_split sub s :
  PyStr.starts_with sub s = true -> exists rest, s = sub +:+ rest.
Proof.
  revert s. induction sub as [|a sub IH]; intros s H.
  - now exists s.
  - destruct s as [|b s]; simpl in H; [discriminate|].
    apply andb_true_iff in H. destruct H as [Hab Hs].
    apply Ascii.eqb_eq in Hab. subst b.
    destruct (IH _ Hs) as [rest ->]. now exists rest.
Qed.

Lemma str_in_unfold sub s :
  PyStr.str_in sub s =
  PyStr.starts_with sub s ||
  match s with
  | EmptyString => false
  | String _ s' => PyStr.str_in sub s'
  end.
Proof. now destruct s. Qed.

Lemma str_in_substring sub s :
  PyStr.str_in sub s = true <-> exists before after, s = before +:+ sub +:+ after.
Proof.
  split.
  - induction s as [|c s IH]; rewrite str_in_unfold; intros H;
      apply orb_true_iff in H; destruct H as [H|H].
    + apply starts_with_split in H. destruct H as [rest ->]. now exists EmptyString, rest.
    + discriminate.
    + apply starts_with_split in H. destruct H as [rest ->]. now exists EmptyString, rest.
    + destruct (IH H) as (before & after & ->). now exists (String c before), after.
  - intros (before & after & ->).
    induction before as [|c before IH].
    + now rewrite str_in_unfold, append_empty_l, starts_with_app.
    + change (String c before +:+ sub +:+ after)
        with (String c (before +:+ sub +:+ after)).
      rewrite str_in_unfold, IH. apply orb_true_r.
Qed.

Lemma str_in_appears target label :
  PyStr.str_in (PyStr.lower target) (PyStr.lower label) = true <->
  Spec.appears_in target label.
Proof. apply str_in_substring. Qed.

Lemma first_target_some targets label target :
  CommodityScraper.first_target targets label = Some target <->
  exists earlier later,
    targets = (earlier ++ target :: later)%list /\
    Spec.appears_in target label /\
    forall u, In u earlier -> ~ Spec.appears_in u label.
Proof.
  split.
  - induction targets as [|t rest IH]; simpl; [discriminate|].
    destruct (PyStr.str_in (PyStr.lower t) (PyStr.lower label)) eqn:E.
    + intros [= ->]. exists [], rest. split; [reflexivity|].
      split; [now apply str_in_appears|]. intros u [].
    + intros H. destruct (IH H) as (earlier & later & -> & Happ & Hno).
      exists (t :: earlier), later. split; [reflexivity|]. split; [exact Happ|].
      intros u [<-|Hu]; [|now apply Hno].
      intros Hu. apply str_in_appears in Hu. congruence.
  - intros (earlier & later & -> & Happ & Hno).
    induction earlier as [|t earlier IH]; simpl.
    + apply str_in_appears in Happ. now rewrite Happ.
    + destruct (PyStr.str_in (PyStr.lower t) (PyStr.lower label)) eqn:E.
      * exfalso. apply (Hno t); [now left|]. now apply str_in_appears.
      * apply IH. intros u Hu. apply Hno. now right.
Qed.

Lemma first_target_none targets label :
  CommodityScraper.first_target targets label = None <->
  forall u, In u targets -> ~ Spec.appears_in u label.
Proof.
  induction targets as [|t rest IH]; simpl.
  - split; [intros _ u []|reflexivity].
  - destruct (PyStr.str_in (PyStr.lower t) (PyStr.lower label)) eqn:E.
    + split; [discriminate|]. intros H. exfalso.
      apply (H t); [now left|]. now apply str_in_appears.
    + rewrite IH. split.
      * intros H u [<-|Hu]; [|now apply H].
        intros Hu. apply str_in_appears in Hu. congruence.
      * intros H u Hu. apply H. now right.
Qed.

Lemma first_target_In targets label target :
  CommodityScraper.first_target targets label = Some target -> In target targets.
Proof.
  intros H. apply first_target_some in H. destruct H as (earlier & later & -> & _).
  apply in_or_app. right. now left.
Qed.

(** C5: matching succeeds exactly when some target's lowercase form is a
    substring of the lowercase label; it then returns the first such target
    in target-list order; with no match it returns none; and
    [match("COBALT ORE", ["Cobalt"]) = "Cobalt"]. *)
Theorem is_target_commodity_spec (self : CommodityScraper.t) (label : string) :
  (is_Some (CommodityScraper.is_target_commodity self label) <->
   exists u, In u (CommodityScraper.target_commodities self) /\ Spec.appears_in u label) /\
  (forall target,
     CommodityScraper.is_target_commodity self label = Some target <->
     exists earlier later,
       CommodityScraper.target_commodities self = (earlier ++ target :: later)%list /\
       Spec.appears_in target label /\
       forall u, In u earlier -> ~ Spec.appears_in u label) /\
  (CommodityScraper.is_target_commodity self label = None <->
   forall u, In u (CommodityScraper.target_commodities self) -> ~ Spec.appears_in u label) /\
  CommodityScraper.is_target_commodity
    (CommodityScraper.init (Some ["Cobalt"])) "COBALT ORE" = Some "Cobalt".
Proof.
  unfold CommodityScraper.is_target_commodity.
  split; [|split; [|split]].
  - split.
    + intros [target H]. apply first_target_some in H.
      destruct H as (earlier & later & E & Happ & _).
      exists target. split; [|exact Happ]. rewrite E. apply in_or_app. right. now left.
    + intros (u & Hu & Happ).
      destruct (CommodityScraper.first_target _ label) eqn:E; [now eexists|].
      exfalso. now apply (proj1 (first_target_none _ _) E u).
  - intros target. apply first_target_some.
  - apply first_target_none.
  - reflexivity.
Qed.

Lemma is_target_commodity_witness :
  CommodityScraper.is_target_commodity Samples.scraper "Cobalt ore" = Some "Cobalt".
Proof.
  apply (proj1 (proj2 (is_target_commodity_spec Samples.scraper "Cobalt ore"))).
  exists ["Lithium"; "Lead"], []. split; [reflexivity|]. split.
  - exists "", " ore". reflexivity.
  - intros u [<-|[<-|[]]] H; apply str_in_appears in H; discriminate H.
Defined.

(** ** [parse_price] *)

Lemma of_string_raises s e : PyFloat.of_string s = Raise e -> e = ValueError.
Proof.
  unfold PyFloat.of_string.
  destruct (PyFloat.drop_underscores _ _) as [u|]; [|now intros [= <-]].
  destruct (PyFloat.take_sign u) as [neg body].
  destruct (_ || _); [discriminate|].
  destruct (String.eqb _ _); [discriminate|].
  destruct (PyFloat.parse_decimal body) as [[m e10]|]; [discriminate|now intros [= <-]].
Qed.

Lemma parse_price_clean s :
  PyStr.replace_char "," "" (Re.sub_not_in [Re.Digit; Re.Lit "."; Re.Lit ","] "" s) =
  PyStr.str_filter Spec.not_comma (PyStr.str_filter Spec.price_char s).
Proof.
  rewrite replace_is_filter, sub_is_filter. f_equal.
  apply str_filter_ext, price_class.
Qed.

Lemma parse_price_str s :
  CommodityScraper.parse_price (PyStr s) = Ok (Spec.parse s).
Proof.
  unfold CommodityScraper.parse_price, Spec.parse.
  cbn [CommodityScraper.re_subject mbind result_bind].
  rewrite parse_price_clean.
  destruct (PyStr.is_empty _); [reflexivity|].
  destruct (PyFloat.of_string _) as [x|e] eqn:E; [reflexivity|].
  apply of_string_raises in E. now subst e.
Qed.

(** C4: on every raw text string, [parse] removes every character that is
    not a digit, period or comma, then removes the commas, returns none if
    nothing is left and otherwise reads the remainder as a floating-point
    number; [parse("1,234.50") = 1234.5] and [parse("N/A")] is none. *)
Theorem parse_price_spec :
  (forall raw_text : string,
     CommodityScraper.parse_price (PyStr raw_text) = Ok (Spec.parse raw_text)) /\
  (exists x, CommodityScraper.parse_price (PyStr "1,234.50") = Ok (Some x) /\
             PyFloat.represents x (12345 # 10)%Q) /\
  CommodityScraper.parse_price (PyStr "N/A") = Ok None.
Proof.
  split; [exact parse_price_str|]. split; [|reflexivity].
  eexists. split; [vm_compute; reflexivity|]. vm_compute. reflexivity.
Qed.

(** ** [extract_price_from_cell] *)

Lemma extract_unfold cell :
  CommodityScraper.extract_price_from_cell cell =
  if truthy (CommodityScraper.strategy_id cell) then CommodityScraper.strategy_id cell
  else if truthy (CommodityScraper.strategy_class cell) then CommodityScraper.strategy_class cell
  else if truthy (CommodityScraper.strategy_inline cell) then CommodityScraper.strategy_inline cell
  else if PyStr.is_empty (Bs4.get_text cell) then PyNone
  else PyStr (Bs4.get_text cell).
Proof.
  unfold CommodityScraper.extract_price_from_cell, CommodityScraper.strategies.
  cbn [CommodityScraper.first_truthy].
  repeat (destruct (truthy _); [reflexivity|]).
  unfold CommodityScraper.strategy_text. cbn [truthy].
  now destruct (PyStr.is_empty _).
Qed.




(** ** Rounding keeps the sign *)

Section RoundingSign.
Local Open Scope Z_scope.

Lemma shr_1_nonneg mrs : 0 <= shr_m mrs -> 0 <= shr_m (shr_1 mrs).
Proof.
  destruct mrs as [m r s0]. simpl.
  destruct m as [|[p|p|]|p]; simpl; lia.
Qed.

Lemma iter_shr_nonneg n mrs : 0 <= shr_m mrs -> 0 <= shr_m (SpecFloat.iter_pos shr_1 n mrs).
Proof.
  revert mrs. induction n as [n IH|n IH|]; intros mrs H; simpl.
  - apply IH, IH, shr_1_nonneg, H.
  - apply IH, IH, H.
  - apply shr_1_nonneg, H.
Qed.

Lemma shr_nonneg mrs e n : 0 <= shr_m mrs -> 0 <= shr_m (fst (shr mrs e n)).
Proof.
  intros H. destruct n; simpl; [exact H| |exact H].
  now apply iter_shr_nonneg.
Qed.

Lemma shr_record_of_loc_m m l : shr_m (shr_record_of_loc m l) = m.
Proof. now destruct l as [|[]]. Qed.

Lemma shr_fexp_nonneg m e l :
  0 <= m -> 0 <= shr_m (fst (shr_fexp PyFloat.prec PyFloat.emax m e l)).
Proof.
  intros H. unfold shr_fexp. apply shr_nonneg. now rewrite shr_record_of_loc_m.
Qed.

Lemma round_nearest_even_nonneg m l : 0 <= m -> 0 <= round_nearest_even m l.
Proof.
  intros H. unfold round_nearest_even.
  destruct l as [|[]]; try lia. destruct (Z.even m); lia.
Qed.

Lemma binary_round_aux_nonneg mx ex lx :
  0 <= mx ->
  PyFloat.nonneg (binary_round_aux PyFloat.prec PyFloat.emax false mx ex lx) = true.
Proof.
  intros H. unfold binary_round_aux.
  pose proof (shr_fexp_nonneg mx ex lx H) as H1.
  destruct (shr_fexp PyFloat.prec PyFloat.emax mx ex lx) as [mrs' e'].
  simpl in H1.
  pose proof (shr_fexp_nonneg _ e' loc_Exact
                (round_nearest_even_nonneg _ (loc_of_shr_record mrs') H1)) as H2.
  destruct (shr_fexp PyFloat.prec PyFloat.emax _ e' loc_Exact) as [mrs'' e''].
  simpl in H2.
  destruct (shr_m mrs'') as [|m|m]; [reflexivity| |lia].
  now destruct (Z.leb e'' _).
Qed.

Lemma SFdiv_core_nonneg a b :
  0 <= fst (fst (SFdiv_core_binary PyFloat.prec PyFloat.emax (Zpos a) 0 (Zpos b) 0)).
Proof.
  unfold SFdiv_core_binary.
  set (s0 := 0 - 0 - _).
  set (m' := match s0 with Z0 => Zpos a | Zpos _ => Z.shiftl (Zpos a) s0 | Zneg _ => 0 end).
  assert (Hm : 0 <= m').
  { unfold m'. destruct s0; try lia. apply Z.shiftl_nonneg. lia. }
  pose proof (Z.div_pos m' (Zpos b) Hm ltac:(lia)) as Hq.
  unfold Z.div in Hq. destruct (Z.div_eucl m' (Zpos b)) as [q r]. exact Hq.
Qed.

Lemma SFdiv_nonneg a b :
  PyFloat.nonneg (SFdiv PyFloat.prec PyFloat.emax (S754_finite false a 0)
                                                  (S754_finite false b 0)) = true.
Proof.
  unfold SFdiv.
  pose proof (SFdiv_core_nonneg a b) as H.
  destruct (SFdiv_core_binary _ _ _ _ _ _) as [[mz ez] lz]. simpl in H.
  change (xorb false false) with false.
  now apply binary_round_aux_nonneg.
Qed.

Lemma of_decimal_nonneg m e10 : 0 <= m -> PyFloat.nonneg (PyFloat.of_decimal false m e10) = true.
Proof.
  intros H. unfold PyFloat.of_decimal.
  destruct m as [|p|p]; [reflexivity| |lia].
  apply SFdiv_nonneg.
Qed.

Lemma digits_value_nonneg s acc : 0 <= acc -> 0 <= PyFloat.digits_value acc s.
Proof.
  revert acc. induction s as [|c s IH]; intros acc H; simpl; [exact H|].
  apply IH. unfold PyFloat.digit_val. lia.
Qed.

Lemma parse_decimal_nonneg s m e10 : PyFloat.parse_decimal s = Some (m, e10) -> 0 <= m.
Proof.
  unfold PyFloat.parse_decimal.
  destruct (PyFloat.span_digits s) as [ip r1].
  destruct (match r1 with EmptyString => _ | String _ _ => _ end) as [fp r2].
  destruct (_ && _); [discriminate|].
  destruct r2 as [|c r3].
  - intros [= <- _]. now apply digits_value_nonneg.
  - destruct (_ || _); [|discriminate].
    destruct (PyFloat.take_sign r3) as [eneg r4].
    destruct (PyFloat.span_digits r4) as [ed r5].
    destruct (_ || _); [discriminate|].
    intros [= <- _]. now apply digits_value_nonneg.
Qed.

End RoundingSign.

(** ** [float] on what the cleaning leaves *)

Lemma numeral_char_facts c :
  PyFloat.numeral_char c = true ->
  PyFloat.is_c_space c = false /\
  (PyStr.code c <? 128)%nat = true /\
  Ascii.eqb c "_" = false /\ Ascii.eqb c "-" = false /\ Ascii.eqb c "+" = false /\
  Ascii.eqb (PyStr.lower_char c) "i" = false /\
  Ascii.eqb (PyStr.lower_char c) "n" = false.
Proof.
  destruct c as [[] [] [] [] [] [] [] []]; vm_compute; intros H;
    try discriminate H; repeat split.
Qed.

Lemma numeral_char_of_filters c :
  Spec.price_char c = true -> Spec.not_comma c = true -> PyFloat.numeral_char c = true.
Proof.
  unfold Spec.price_char, Spec.not_comma, PyFloat.numeral_char.
  destruct (Ascii.eqb c ","); [discriminate|]. now rewrite orb_false_r.
Qed.

Lemma str_forall_and (p q r : ascii -> bool) s :
  (forall c, p c = true -> q c = true -> r c = true) ->
  PyStr.str_forall p s = true -> PyStr.str_forall q s = true ->
  PyStr.str_forall r s = true.
Proof.
  intros H. induction s as [|c s IH]; simpl; [reflexivity|].
  intros Hp Hq. apply andb_true_iff in Hp, Hq.
  destruct Hp as [Hp Hps], Hq as [Hq Hqs].
  rewrite (H c Hp Hq). now apply IH.
Qed.

Lemma cleaned_is_numeral s :
  PyStr.str_forall PyFloat.numeral_char
    (PyStr.str_filter Spec.not_comma (PyStr.str_filter Spec.price_char s)) = true.
Proof.
  apply (str_forall_and Spec.price_char Spec.not_comma).
  - exact numeral_char_of_filters.
  - apply forall_filter_keeps, forall_filter.
  - apply forall_filter.
Qed.

Lemma drop_underscores_none s :
  PyStr.str_forall (fun c => negb (Ascii.eqb c "_")) s = true ->
  forall prev,
    match prev with Some a => Ascii.eqb a "_" = false | None => True end ->
    PyFloat.drop_underscores prev s = Some s.
Proof.
  induction s as [|c s IH]; intros H prev Hprev.
  - destruct prev as [a|]; simpl; [now rewrite Hprev|reflexivity].
  - simpl in H. apply andb_true_iff in H. destruct H as [Hc Hs].
    apply negb_true_iff in Hc.
    cbn [PyFloat.drop_underscores]. rewrite Hc.
    rewrite (IH Hs (Some c) Hc).
    destruct prev as [a|]; [|reflexivity]. now rewrite Hprev.
Qed.

Lemma of_string_numeral_nonneg s x :
  PyStr.str_forall PyFloat.numeral_char s = true ->
  PyFloat.of_string s = Ok x -> PyFloat.nonneg x = true.
Proof.
  intros Hs. unfold PyFloat.of_string.
  assert (Hascii : PyFloat.is_ascii s = true).
  { apply (str_forall_impl PyFloat.numeral_char); [|exact Hs].
    intros c Hc. apply numeral_char_facts in Hc. now destruct Hc as (_ & -> & _). }
  rewrite Hascii.
  rewrite (forall_none_lstrip PyFloat.is_c_space s), (forall_none_rstrip PyFloat.is_c_space s).
  2, 3: apply (str_forall_impl PyFloat.numeral_char); [|exact Hs];
        intros c Hc; apply numeral_char_facts in Hc; now destruct Hc as [-> _].
  rewrite (drop_underscores_none s); [|
    apply (str_forall_impl PyFloat.numeral_char); [|exact Hs];
    intros c Hc; apply numeral_char_facts in Hc; now destruct Hc as (_ & _ & -> & _) | exact I].
  assert (Hsign : PyFloat.take_sign s = (false, s)).
  { destruct s as [|c s']; [reflexivity|]. simpl in Hs.
    apply andb_true_iff in Hs. destruct Hs as [Hc _].
    apply numeral_char_facts in Hc. destruct Hc as (_ & _ & _ & Hm & Hp & _).
    simpl. now rewrite Hm, Hp. }
  rewrite Hsign.
  assert (Hword : forall a w, (a = "i" \/ a = "n")%char ->
                    String.eqb (PyStr.lower s) (String a w) = false).
  { intros a w Ha. destruct s as [|c s']; [reflexivity|]. simpl in Hs.
    apply andb_true_iff in Hs. destruct Hs as [Hc _].
    apply numeral_char_facts in Hc. destruct Hc as (_ & _ & _ & _ & _ & Hi & Hn).
    simpl. destruct Ha as [-> | ->]; [now rewrite Hi|now rewrite Hn]. }
  rewrite !Hword by auto. cbn [orb].
  destruct (PyFloat.parse_decimal s) as [[m e10]|] eqn:E; [|discriminate].
  intros [= <-]. apply of_decimal_nonneg. now apply parse_decimal_nonneg in E.
Qed.

Lemma parse_price_nonneg v x :
  CommodityScraper.parse_price v = Ok (Some x) -> PyFloat.nonneg x = true.
Proof.
  destruct v as [|s|t]; [discriminate| |discriminate].
  rewrite parse_price_str. unfold Spec.parse.
  destruct (PyStr.is_empty _); [discriminate|].
  destruct (PyFloat.of_string _) as [y|] eqn:E; [|discriminate].
  intros [= <-]. eapply of_string_numeral_nonneg; [|exact E].
  apply cleaned_is_numeral.
Qed.

(** ** The document tree *)

Lemma node_induction (P : Bs4.node -> Prop) :
  (forall s, P (Bs4.NavigableString s)) ->
  (forall name attrs children, Forall P children -> P (Bs4.Tag name attrs children)) ->
  forall n, P n.
Proof.
  intros Htext Htag. fix IH 1. intros [s|name attrs children].
  - apply Htext.
  - apply Htag. induction children as [|c cs IHcs]; constructor; [apply IH|exact IHcs].
Qed.

Lemma descendants_tag name attrs children :
  Bs4.descendants (Bs4.Tag name attrs children) =
  flat_map (fun c => c :: Bs4.descendants c) children.
Proof.
  cbn [Bs4.descendants]. induction children as [|c cs IH]; [reflexivity|].
  cbn [flat_map app]. now rewrite IH.
Qed.

Lemma in_descendants_tag name attrs children d :
  In d (Bs4.descendants (Bs4.Tag name attrs children)) <->
  exists c, In c children /\ (d = c \/ In d (Bs4.descendants c)).
Proof.
  rewrite descendants_tag, in_flat_map. split.
  - intros (c & Hc & [<-|Hd]); exists c; auto.
  - intros (c & Hc & [->|Hd]); exists c; split; auto; [now left|now right].
Qed.

Lemma descendants_trans c d x :
  In d (Bs4.descendants c) -> In x (Bs4.descendants d) -> In x (Bs4.descendants c).
Proof.
  revert d x. induction c as [s|name attrs children IH] using node_induction;
    intros d x Hd Hx; [destruct Hd|].
  apply in_descendants_tag in Hd. destruct Hd as (c & Hc & Hd).
  apply in_descendants_tag. exists c. split; [exact Hc|]. right.
  destruct Hd as [->|Hd]; [exact Hx|].
  rewrite List.Forall_forall in IH. exact (IH c Hc d x Hd Hx).
Qed.

(** ** The scan *)

Lemma for_each_app {A S : Type} (l1 l2 : list A) (body : S -> A -> result S) (s : S) :
  for_each (l1 ++ l2) body s = s' ← for_each l1 body s; for_each l2 body s'.
Proof.
  revert s. induction l1 as [|a l1 IH]; intros s; [reflexivity|].
  cbn [app for_each]. destruct (body s a) as [s1|e]; [apply IH|reflexivity].
Qed.

Lemma for_each_invariant {A S : Type} (P : S -> Prop) (body : S -> A -> result S) l :
  (forall s a s', P s -> body s a = Ok s' -> P s') ->
  forall s s', P s -> for_each l body s = Ok s' -> P s'.
Proof.
  intros Hbody. induction l as [|a l IH]; intros s s' Hs; cbn [for_each].
  - now intros [= <-].
  - destruct (body s a) as [s1|e] eqn:E; [|discriminate].
    apply IH. now apply (Hbody s a).
Qed.

Section ScanFacts.
Import Bs4 CommodityScraper Scan.
Variable self : CommodityScraper.t.
Variable now : datetime.

Lemma scan_table_first_row_skipped results table first rest :
  find_all ["tr"] table = first :: rest ->
  scan_table self now results table = for_each rest (scan_row self now) results.
Proof.
  intros E. unfold scan_table. rewrite E. cbn [List.length List.tl].
  destruct rest as [|second rest]; reflexivity.
Qed.

Lemma scan_table_short results table :
  List.length (find_all ["tr"] table) < 2 ->
  scan_table self now results table = Ok results.
Proof.
  intros H. unfold scan_table.
  apply Nat.ltb_lt in H. now rewrite H.
Qed.

Lemma scan_row_short results row :
  List.length (find_all ["td"; "th"] row) < 2 ->
  scan_row self now results row = Ok results.
Proof.
  intros H. unfold scan_row.
  destruct (find_all ["td"; "th"] row) as [|c0 [|c1 rest]]; try reflexivity.
  simpl in H. lia.
Qed.

Lemma scan_table_as_rows results table :
  scan_table self now results table =
  for_each (let rows := find_all ["tr"] table in
            if (List.length rows <? 2)%nat then [] else List.tl rows)
           (scan_row self now) results.
Proof. unfold scan_table. now destruct (_ <? _)%nat. Qed.

Lemma scrape_as_rows soup :
  scrape_all_tables self soup now = for_each (data_rows soup) (scan_row self now) ∅.
Proof.
  unfold scrape_all_tables, data_rows.
  generalize (∅ : gmap string CommodityPrice.t).
  induction (find_all ["table"] soup) as [|table tables IH]; intros results; [reflexivity|].
  cbn [flat_map for_each]. rewrite for_each_app, <- scan_table_as_rows.
  destruct (scan_table self now results table); [apply IH|reflexivity].
Qed.

Lemma scan_row_cases results row results' :
  scan_row self now results row = Ok results' ->
  results' = results \/
  exists target p,
    row_quote self row = Some (target, p) /\ target <> "" /\
    results' = <[target := CommodityPrice.new target p now]> results.
Proof.
  unfold scan_row, row_quote.
  destruct (find_all ["td"; "th"] row) as [|c0 [|c1 rest]];
    try (intros [= <-]; now left).
  destruct (is_target_commodity self _) as [target|]; [|intros [= <-]; now left].
  destruct (PyStr.is_empty target) eqn:Et; [intros [= <-]; now left|].
  destruct (parse_price _) as [[p|]|e]; cbn [mbind result_bind];
    [|intros [= <-]; now left|discriminate].
  intros [= <-]. right. exists target, p. split; [reflexivity|]. split; [|reflexivity].
  intros ->. discriminate.
Qed.

Lemma scan_row_quote results row target p :
  row_quote self row = Some (target, p) -> target <> "" ->
  scan_row self now results row =
  Ok (<[target := CommodityPrice.new target p now]> results).
Proof.
  unfold scan_row, row_quote.
  destruct (find_all ["td"; "th"] row) as [|c0 [|c1 rest]]; try discriminate.
  destruct (is_target_commodity self _) as [t|]; [|discriminate].
  destruct (parse_price _) as [[x|]|e]; try discriminate.
  intros [= -> ->] Hne. cbn [mbind result_bind].
  destruct target; [contradiction|reflexivity].
Qed.

Lemma row_quote_facts row target p :
  row_quote self row = Some (target, p) ->
  In target (target_commodities self) /\ PyFloat.nonneg p = true.
Proof.
  unfold row_quote.
  destruct (find_all ["td"; "th"] row) as [|c0 [|c1 rest]]; try discriminate.
  destruct (is_target_commodity self _) as [t|] eqn:Et; [|discriminate].
  destruct (parse_price _) as [[x|]|e] eqn:Ep; try discriminate.
  intros [= -> ->]. split.
  - now apply first_target_In in Et.
  - now apply parse_price_nonneg in Ep.
Qed.

Lemma well_formed_empty : well_formed self ∅.
Proof. intros key record H. now rewrite lookup_empty in H. Qed.

Lemma scan_row_well_formed results row results' :
  well_formed self results -> scan_row self now results row = Ok results' ->
  well_formed self results'.
Proof.
  intros Hwf H. apply scan_row_cases in H.
  destruct H as [-> | (target & p & Hq & _ & ->)]; [exact Hwf|].
  apply row_quote_facts in Hq. destruct Hq as [Hin Hp].
  intros key record. rewrite lookup_insert. case_decide as Hk.
  - subst key. intros [= <-]. now repeat split.
  - now apply Hwf.
Qed.

Lemma scrape_well_formed soup results :
  scrape_all_tables self soup now = Ok results -> well_formed self results.
Proof.
  rewrite scrape_as_rows.
  apply (for_each_invariant (well_formed self)); [|exact well_formed_empty].
  intros s a s'. apply scan_row_well_formed.
Qed.

Lemma run_well_formed fetch_page :
  well_formed self (scrape_commodities self fetch_page now).
Proof.
  unfold scrape_commodities.
  destruct fetch_page as [soup|e]; cbn [mbind result_bind]; [|exact well_formed_empty].
  destruct (scrape_all_tables self soup now) eqn:E; [|exact well_formed_empty].
  now apply scrape_well_formed in E.
Qed.

Lemma later_rows_keep results rows results' target :
  for_each rows (scan_row self now) results = Ok results' ->
  (forall r q, In r rows -> row_quote self r <> Some (target, q)) ->
  results' !! target = results !! target.
Proof.
  revert results. induction rows as [|r rows IH]; intros results; cbn [for_each].
  - now intros [= <-].
  - destruct (scan_row self now results r) as [mid|e] eqn:E; [|discriminate].
    cbn [mbind result_bind]. intros H Hno.
    rewrite (IH mid H) by (intros r' q Hr'; apply Hno; now right).
    apply scan_row_cases in E. destruct E as [-> | (t & p & Hq & _ & ->)]; [reflexivity|].
    apply lookup_insert_ne. intros ->. apply (Hno r p); [now left|exact Hq].
Qed.

End ScanFacts.

Lemma for_each_skipped {A S : Type} (body : S -> A -> result S) l s :
  (forall a, In a l -> forall s0, body s0 a = Ok s0) -> for_each l body s = Ok s.
Proof.
  induction l as [|a l IH]; intros H; cbn [for_each]; [reflexivity|].
  rewrite (H a) by now left. cbn [mbind result_bind].
  apply IH. intros a' Ha'. apply H. now right.
Qed.

Lemma for_each_returns {A S : Type} (body : S -> A -> result S) l :
  (forall a, In a l -> forall s0, exists s1, body s0 a = Ok s1) ->
  forall s, exists s', for_each l body s = Ok s'.
Proof.
  induction l as [|a l IH]; intros H s; cbn [for_each]; [now exists s|].
  destruct (H a (or_introl eq_refl) s) as [s1 ->]. cbn [mbind result_bind].
  apply IH. intros a' Ha'. apply H. now right.
Qed.

(** The scan returns a mapping when every price cell it reaches yields a
    string. *)
Lemma scrape_returns_on_text_prices self soup now :
  (forall row label_cell price_cell rest,
     In row (Scan.data_rows soup) ->
     Bs4.find_all ["td"; "th"] row = label_cell :: price_cell :: rest ->
     exists s, CommodityScraper.extract_price_from_cell price_cell = PyStr s) ->
  exists results, CommodityScraper.scrape_all_tables self soup now = Ok results.
Proof.
  intros H. rewrite scrape_as_rows. apply for_each_returns.
  intros row Hrow results. unfold CommodityScraper.scan_row.
  destruct (Bs4.find_all ["td"; "th"] row) as [|c0 [|c1 rest]] eqn:E; try now eexists.
  destruct (CommodityScraper.is_target_commodity self _) as [target|]; [|now eexists].
  destruct (PyStr.is_empty target); [now eexists|].
  destruct (H row c0 c1 rest Hrow E) as [s ->].
  rewrite parse_price_str. cbn [mbind result_bind].
  destruct (Spec.parse s); now eexists.
Qed.

(** ** Positions in the document *)

Section PositionFacts.
Import Bs4 Position.

Lemma below_cons f i c l :
  below f i (c :: l) = ([i], c) :: (map (under i) (f c) ++ below f (S i) l)%list.
Proof. reflexivity. Qed.

Lemma in_below f i l p d :
  In (p, d) (below f i l) <->
  exists k c, nth_error l k = Some c /\
              ((p = [i + k] /\ d = c) \/ exists q, p = (i + k) :: q /\ In (q, d) (f c)).
Proof.
  revert i. induction l as [|c l IH]; intros i.
  - split; [intros []|]. intros (k & c & H & _). now destruct k.
  - rewrite below_cons. cbn [In]. rewrite in_app_iff, in_map_iff, IH. split.
    + intros [H|[((q & d') & H & Hq)|(k & c' & Hk & H)]].
      * injection H as <- <-. exists 0, c. split; [reflexivity|]. left.
        now rewrite Nat.add_0_r.
      * injection H as <- <-. exists 0, c. split; [reflexivity|]. right.
        exists q. now rewrite Nat.add_0_r.
      * exists (S k), c'. split; [exact Hk|]. now rewrite Nat.add_succ_r.
    + intros (k & c' & Hk & H). destruct k as [|k].
      * injection Hk as <-. rewrite Nat.add_0_r in H.
        destruct H as [[-> ->]|(q & -> & Hq)]; [now left|].
        right. left. now exists (q, d).
      * right. right. exists k, c'. split; [exact Hk|].
        now rewrite Nat.add_succ_r in H.
Qed.

Lemma located_node_at n p d :
  In (p, d) (located n) <-> p <> [] /\ node_at n p = Some d.
Proof.
  revert p d. induction n as [s|name attrs cs IH] using node_induction; intros p d.
  - cbn [located]. split; [intros []|]. intros [Hp H]. destruct p; [now elim Hp|discriminate].
  - rewrite List.Forall_forall in IH. cbn [located]. rewrite in_below. split.
    + intros (k & c & Hk & [[-> ->]|(q & -> & Hq)]); (split; [discriminate|]);
        cbn [node_at Nat.add]; rewrite Hk; [reflexivity|].
      now apply (IH c (nth_error_In _ _ Hk)).
    + intros [Hp H]. destruct p as [|k q]; [now elim Hp|].
      cbn [node_at] in H. destruct (nth_error cs k) as [c|] eqn:Hk; [|discriminate].
      exists k, c. split; [exact Hk|]. destruct q as [|j q].
      * left. now injection H as <-.
      * right. exists (j :: q). split; [reflexivity|].
        apply (IH c (nth_error_In _ _ Hk)). split; [discriminate|exact H].
Qed.

Lemma node_at_app n p q :
  node_at n (p ++ q)%list = match node_at n p with Some m => node_at m q | None => None end.
Proof.
  revert n. induction p as [|i p IH]; intros n; [reflexivity|].
  cbn [app node_at]. destruct n as [s|name attrs cs]; [reflexivity|].
  destruct (nth_error cs i); [apply IH|reflexivity].
Qed.

Lemma below_first_index f i l p d :
  In (p, d) (below f i l) -> exists k q, p = k :: q /\ i <= k.
Proof.
  rewrite in_below. intros (k & c & _ & [[-> _]|(q & -> & _)]); eexists _, _; split;
    try reflexivity; lia.
Qed.

Lemma below_paths_distinct f i l :
  (forall c, In c l -> List.NoDup (map fst (f c))) ->
  (forall c p d, In c l -> In (p, d) (f c) -> p <> []) ->
  List.NoDup (map fst (below f i l)).
Proof.
  revert i. induction l as [|c l IH]; intros i Hnd Hne; [constructor|].
  rewrite below_cons. cbn [map].
  assert (Hlater : forall p, In p (map fst (below f (S i) l)) ->
                             exists k q, p = k :: q /\ S i <= k).
  { intros p Hp. apply in_map_iff in Hp. destruct Hp as ((p' & d) & <- & Hp).
    now apply below_first_index in Hp. }
  assert (Hhere : forall p, In p (map fst (map (under i) (f c))) ->
                            exists q, p = i :: q /\ q <> []).
  { intros p Hp. apply in_map_iff in Hp. destruct Hp as ((p' & d) & <- & Hp).
    apply in_map_iff in Hp. destruct Hp as ((q & d') & [= <- <-] & Hq).
    exists q. split; [reflexivity|]. apply (Hne c q d'); [now left|exact Hq]. }
  rewrite map_app. constructor.
  - rewrite in_app_iff. intros [H|H].
    + apply Hhere in H. destruct H as (q & [= <-] & Hq). now elim Hq.
    + apply Hlater in H. destruct H as (k & q & [= <- _] & Hk). lia.
  - apply List.NoDup_app.
    + rewrite map_map. cbn [under fst].
      rewrite <- (map_map fst (cons i)). apply Finite.Injective_map_NoDup.
      * intros x y [= ->]. reflexivity.
      * apply Hnd. now left.
    + apply IH; intros; [apply Hnd|eapply Hne]; try right; eassumption.
    + intros p Hp Hp'. apply Hhere in Hp. apply Hlater in Hp'.
      destruct Hp as (q & -> & _). destruct Hp' as (k & q' & [= <- _] & Hk). lia.
Qed.

Lemma located_paths_distinct n : List.NoDup (map fst (located n)).
Proof.
  induction n as [s|name attrs cs IH] using node_induction; [constructor|].
  rewrite List.Forall_forall in IH. cbn [located]. apply below_paths_distinct; [exact IH|].
  intros c p d _ H. now apply located_node_at in H.
Qed.

Lemma below_nodes f g i l :
  (forall c, In c l -> map snd (f c) = g c) ->
  map snd (below f i l) = flat_map (fun c => c :: g c) l.
Proof.
  revert i. induction l as [|c l IH]; intros i H; [reflexivity|].
  rewrite below_cons. cbn [map flat_map app]. rewrite map_app, map_map. cbn [under snd].
  rewrite (IH (S i)) by (intros; apply H; now right).
  f_equal. f_equal. apply H. now left.
Qed.

Lemma located_nodes n : map snd (located n) = descendants n.
Proof.
  induction n as [s|name attrs cs IH] using node_induction; [reflexivity|].
  rewrite List.Forall_forall in IH. rewrite descendants_tag. cbn [located].
  now apply below_nodes.
Qed.

Lemma filter_map_snd {A B} (P : B -> bool) (l : list (A * B)) :
  map snd (List.filter (fun x => P (snd x)) l) = List.filter P (map snd l).
Proof.
  induction l as [|x l IH]; [reflexivity|]. cbn [List.filter map].
  destruct (P (snd x)); cbn [map]; now rewrite IH.
Qed.

Lemma map_tail {A B} (f : A -> B) (l : list A) : map f (List.tl l) = List.tl (map f l).
Proof. now destruct l. Qed.

Lemma find_all_at_nodes names n : map snd (find_all_at names n) = find_all names n.
Proof. unfold find_all_at, find_all. now rewrite filter_map_snd, located_nodes. Qed.

Lemma find_all_at_length names n :
  List.length (find_all_at names n) = List.length (find_all names n).
Proof. now rewrite <- find_all_at_nodes, length_map. Qed.

Lemma data_rows_at_nodes soup : map snd (data_rows_at soup) = Scan.data_rows soup.
Proof.
  unfold data_rows_at, Scan.data_rows. rewrite <- (find_all_at_nodes ["table"] soup).
  induction (find_all_at ["table"] soup) as [|[p table] l IH]; [reflexivity|].
  cbn [flat_map map fst snd]. rewrite map_app, IH. f_equal.
  rewrite find_all_at_length, <- find_all_at_nodes.
  destruct (_ <? _)%nat; [reflexivity|].
  rewrite map_map. cbn [from snd]. now rewrite map_tail.
Qed.

Lemma find_all_at_spec names n p d :
  In (p, d) (find_all_at names n) <->
  p <> [] /\ node_at n p = Some d /\ is_tag names d = true.
Proof.
  unfold find_all_at. rewrite filter_In, located_node_at. cbn [snd]. tauto.
Qed.

Lemma find_all_at_paths_distinct names n : List.NoDup (map fst (find_all_at names n)).
Proof.
  unfold find_all_at. pose proof (located_paths_distinct n) as H.
  induction (located n) as [|x l IH]; [constructor|].
  cbn [map] in H. inversion H as [|? ? Hx Hl]; subst. cbn [List.filter].
  destruct (is_tag names (snd x)); [|now apply IH].
  cbn [map]. constructor; [|now apply IH].
  intros Hin. apply Hx. apply in_map_iff in Hin. destruct Hin as (y & <- & Hy).
  apply filter_In in Hy. apply in_map. tauto.
Qed.

(** A table found below a table of the document makes the document one
    with nested tables. *)
Lemma table_below_table soup p table q inner :
  In (p, table) (find_all_at ["table"] soup) ->
  q <> [] ->
  node_at table q = Some inner ->
  is_tag ["table"] inner = true ->
  tables_nested soup = true.
Proof.
  intros Ht Hq Hin Htag. unfold tables_nested. apply existsb_exists.
  exists table. split.
  - rewrite <- find_all_at_nodes. now apply (in_map snd) in Ht.
  - assert (H : In inner (find_all ["table"] table)).
    { rewrite <- find_all_at_nodes. apply (in_map snd _ (q, inner)).
      now apply find_all_at_spec. }
    destruct (find_all ["table"] table); [destruct H|reflexivity].
Qed.

(** In a document without nested tables, the first row of a table is at
    none of the positions the scan visits. *)
Lemma first_row_not_visited soup p table q first rest :
  tables_nested soup = false ->
  In (p, table) (find_all_at ["table"] soup) ->
  find_all_at ["tr"] table = (q, first) :: rest ->
  ~ In (p ++ q)%list (map fst (data_rows_at soup)).
Proof.
  intros Hflat Ht Hrows Hin.
  apply in_map_iff in Hin. destruct Hin as ((pq & r) & Hpq & Hin). cbn [fst] in Hpq.
  subst pq. unfold data_rows_at in Hin. apply in_flat_map in Hin.
  destruct Hin as ((p' & table') & Ht' & Hin). cbn [fst snd] in Hin.
  destruct (_ <? _)%nat; [destruct Hin|].
  apply in_map_iff in Hin. destruct Hin as ((q' & r') & [= Hpq <-] & Hr').
  pose proof (proj1 (find_all_at_spec _ _ _ _) Ht) as (Hp & Hat & Htag).
  pose proof (proj1 (find_all_at_spec _ _ _ _) Ht') as (Hp' & Hat' & Htag').
  assert (Hfirst : In (q, first) (find_all_at ["tr"] table)) by (rewrite Hrows; now left).
  apply find_all_at_spec in Hfirst. destruct Hfirst as (Hq & Hatq & _).
  assert (Hrow' : In (q', r') (find_all_at ["tr"] table')).
  { destruct (find_all_at ["tr"] table'); [destruct Hr'|now right]. }
  apply find_all_at_spec in Hrow'. destruct Hrow' as (Hq' & Hatq' & _).
  apply app_eq_app in Hpq. destruct Hpq as (l & [[-> ->]|[-> ->]]).
  - destruct l as [|i l].
    + rewrite app_nil_r in Hat'. cbn [app] in *.
      assert (table' = table) by congruence. subst table'.
      rewrite Hrows in Hr'. cbn [List.tl] in Hr'.
      pose proof (find_all_at_paths_distinct ["tr"] table) as Hnd.
      rewrite Hrows in Hnd. cbn [map fst] in Hnd. inversion Hnd as [|? ? Hx _]; subst.
      apply Hx. now apply (in_map fst) in Hr'.
    + rewrite node_at_app, Hat in Hat'.
      enough (tables_nested soup = true) by congruence.
      now apply (table_below_table soup p table (i :: l) table').
  - destruct l as [|i l].
    + rewrite app_nil_r in Hat. cbn [app] in *.
      assert (table' = table) by congruence. subst table'.
      rewrite Hrows in Hr'. cbn [List.tl] in Hr'.
      pose proof (find_all_at_paths_distinct ["tr"] table) as Hnd.
      rewrite Hrows in Hnd. cbn [map fst] in Hnd. inversion Hnd as [|? ? Hx _]; subst.
      apply Hx. now apply (in_map fst) in Hr'.
    + rewrite node_at_app, Hat' in Hat.
      enough (tables_nested soup = true) by congruence.
      now apply (table_below_table soup p' table' (i :: l) table).
Qed.

End PositionFacts.

(** ** The claims about the scan *)

(** C6, as stated, fails when a table lies inside another: the rows of an
    outer table are all the rows below it, those of an inner table
    included.  Here the inner table has one row only and is skipped as a
    table, yet that row is the third row of the outer table: it is
    visited and its price recorded.  Without that row the scan records
    nothing. *)
Lemma nested_table_first_row_is_data :
  In ([0; 1; 0; 0], Samples.header_only)
     (Position.find_all_at ["table"] Position.page_with_nested_table) /\
  Position.find_all_at ["tr"] Samples.header_only = [([0], Samples.row "Lead" "5")] /\
  CommodityScraper.scan_table Samples.scraper 0%Z ∅ Samples.header_only = Ok ∅ /\
  In ([0; 1; 0; 0] ++ [0])%list
     (map fst (Position.data_rows_at Position.page_with_nested_table)) /\
  (exists results,
     CommodityScraper.scrape_all_tables
       Samples.scraper Position.page_with_nested_table 0%Z = Ok results /\
     results !! "Lead" = Some (CommodityPrice.new "Lead" Samples.five 0%Z)) /\
  CommodityScraper.scrape_all_tables
    Samples.scraper Position.page_with_empty_nested_table 0%Z = Ok ∅.
Proof.
  split; [right; left; reflexivity|]. split; [reflexivity|]. split; [reflexivity|].
  split; [right; left; reflexivity|]. split; [|vm_compute; reflexivity].
  eexists. split; [reflexivity|]. vm_compute. reflexivity.
Qed.

(** C6, amended: the scan visits, of every table with two rows or more,
    all the rows below it but the first, and no other row.  In a document
    in which no table lies inside another it therefore never treats a
    table's first row as data and visits no row of a table with fewer
    than two rows, so that a table with exactly one row adds no record
    whatever it contains.  In every document a table with fewer than two
    rows is skipped when its turn comes, a row with fewer than two cells
    is skipped, and a document all of whose tables have one row yields
    the empty mapping. *)
Theorem scan_skips_short_tables_and_rows
    (self : CommodityScraper.t) (now : datetime) (soup : Bs4.node) :
  CommodityScraper.scrape_all_tables self soup now =
    for_each (map snd (Position.data_rows_at soup)) (CommodityScraper.scan_row self now) ∅ /\
  (Position.tables_nested soup = false ->
   forall p table,
     In (p, table) (Position.find_all_at ["table"] soup) ->
     (forall q first rest,
        Position.find_all_at ["tr"] table = (q, first) :: rest ->
        ~ In (p ++ q)%list (map fst (Position.data_rows_at soup))) /\
     (List.length (Bs4.find_all ["tr"] table) < 2 ->
      forall q row,
        In (q, row) (Position.find_all_at ["tr"] table) ->
        ~ In (p ++ q)%list (map fst (Position.data_rows_at soup)))) /\
  (forall results table,
     List.length (Bs4.find_all ["tr"] table) < 2 ->
     CommodityScraper.scan_table self now results table = Ok results) /\
  (forall results table first rest,
     Bs4.find_all ["tr"] table = first :: rest ->
     CommodityScraper.scan_table self now results table =
     for_each rest (CommodityScraper.scan_row self now) results) /\
  (forall results row,
     List.length (Bs4.find_all ["td"; "th"] row) < 2 ->
     CommodityScraper.scan_row self now results row = Ok results) /\
  ((forall table, In table (Bs4.find_all ["table"] soup) ->
                  List.length (Bs4.find_all ["tr"] table) = 1) ->
   CommodityScraper.scrape_all_tables self soup now = Ok ∅).
Proof.
  split; [|split; [|split; [|split; [|split]]]].
  - now rewrite data_rows_at_nodes, scrape_as_rows.
  - intros Hflat p table Ht. split.
    + intros q first rest. now apply first_row_not_visited.
    + intros Hshort q row Hrow.
      rewrite <- find_all_at_length in Hshort.
      destruct (Position.find_all_at ["tr"] table) as [|[q1 first] rest] eqn:E;
        [destruct Hrow|].
      destruct rest as [|second rest]; [|cbn [List.length] in Hshort; lia].
      destruct Hrow as [[= <- <-]|[]].
      now apply (first_row_not_visited soup p table q1 first []).
  - intros results table. apply scan_table_short.
  - intros results table first rest. apply scan_table_first_row_skipped.
  - intros results row. apply scan_row_short.
  - intros H. unfold CommodityScraper.scrape_all_tables.
    apply for_each_skipped. intros table Ht s0.
    apply scan_table_short. rewrite (H table Ht). lia.
Qed.

Lemma scan_skips_witness :
  Position.tables_nested Samples.two_tables = false /\
  ~ In [0; 0] (map fst (Position.data_rows_at Samples.two_tables)).
Proof.
  split; [reflexivity|].
  pose proof (proj1 (proj2 (scan_skips_short_tables_and_rows
                              Samples.scraper 0%Z Samples.two_tables))
                eq_refl [0] _ (or_introl eq_refl)) as [Hfirst _].
  exact (Hfirst [0] _ _ eq_refl).
Defined.

(** C7, as stated, fails for a target that is the empty string: every row
    matches it, with a validly parsed price, and none is recorded. *)
Lemma blank_target_never_recorded :
  Scan.row_quote Samples.blank_target_scraper (Samples.row "Lead" "5") =
    Some ("", Samples.five) /\
  In (Samples.row "Lead" "5") (Scan.data_rows Samples.two_tables) /\
  exists results,
    CommodityScraper.scrape_all_tables
      Samples.blank_target_scraper Samples.two_tables 0%Z = Ok results /\
    results !! "" = None.
Proof.
  split; [vm_compute; reflexivity|]. split; [now left|].
  exists ∅. split; [vm_compute; reflexivity|reflexivity].
Qed.

(** C7, amended: when the scan returns a mapping and rows, in scan order,
    match the same non-empty target with validly parsed prices, the mapping
    holds for that target the one record carrying the last such row's
    price. *)
Theorem last_write_wins
    (self : CommodityScraper.t) (soup : Bs4.node) (now : datetime)
    (results : gmap string CommodityPrice.t)
    (earlier later : list Bs4.node) (row : Bs4.node)
    (target : string) (p : PyFloat.float) :
  CommodityScraper.scrape_all_tables self soup now = Ok results ->
  Scan.data_rows soup = (earlier ++ row :: later)%list ->
  Scan.row_quote self row = Some (target, p) ->
  target <> "" ->
  (forall r q, In r later -> Scan.row_quote self r <> Some (target, q)) ->
  results !! target = Some (CommodityPrice.new target p now).
Proof.
  intros Hscan Hrows Hq Hne Hlast.
  rewrite scrape_as_rows, Hrows, for_each_app in Hscan.
  destruct (for_each earlier _ ∅) as [mid|e]; [|discriminate].
  cbn [mbind result_bind for_each] in Hscan.
  rewrite (scan_row_quote self now mid row target p Hq Hne) in Hscan.
  cbn [mbind result_bind] in Hscan.
  rewrite (later_rows_keep self now _ later results target Hscan Hlast).
  apply lookup_insert_eq.
Qed.

Lemma last_write_wins_witness :
  CommodityScraper.scrape_commodities Samples.scraper (Ok Samples.two_tables) 0%Z !! "Lead"
  = Some (CommodityPrice.new "Lead" Samples.six 0%Z).
Proof.
  apply (last_write_wins Samples.scraper Samples.two_tables 0%Z _
           [Samples.row "Lead" "5"; Samples.row "Cobalt ore" "7"]
           [Samples.row "Gold" "9"]
           (Samples.row "lead (LME)" "6")).
  - vm_compute. reflexivity.
  - reflexivity.
  - vm_compute. reflexivity.
  - discriminate.
  - intros r q [<-|[]]. vm_compute. discriminate.
Defined.

(** C9: every key of the mapping a scan returns is one of the configured
    targets, and the record stored under a key carries that key as its
    name; the same holds of the mapping a run returns. *)
Theorem result_keys_are_targets (self : CommodityScraper.t) (now : datetime) :
  (forall soup results key record,
     CommodityScraper.scrape_all_tables self soup now = Ok results ->
     results !! key = Some record ->
     In key (CommodityScraper.target_commodities self) /\
     CommodityPrice.name record = key) /\
  (forall fetch_page key record,
     CommodityScraper.scrape_commodities self fetch_page now !! key = Some record ->
     In key (CommodityScraper.target_commodities self) /\
     CommodityPrice.name record = key).
Proof.
  split.
  - intros soup results key record Hscan Hkey.
    destruct (scrape_well_formed self now soup results Hscan key record Hkey)
      as (Hin & Hname & _).
    now split.
  - intros fetch_page key record H.
    destruct (run_well_formed self now fetch_page key record H) as (Hin & Hname & _).
    now split.
Qed.

Lemma result_keys_witness :
  In "Lead" (CommodityScraper.target_commodities Samples.scraper) /\
  CommodityPrice.name (CommodityPrice.new "Lead" Samples.six 0%Z) = "Lead".
Proof.
  apply (proj1 (result_keys_are_targets Samples.scraper 0%Z) Samples.two_tables
           (CommodityScraper.scrape_commodities Samples.scraper (Ok Samples.two_tables) 0%Z)
           "Lead" (CommodityPrice.new "Lead" Samples.six 0%Z)).
  - vm_compute. reflexivity.
  - vm_compute. reflexivity.
Defined.

(** C3, as stated, fails: a numeral too large for a double parses to
    positive infinity, and the record is written with that price. *)
Lemma huge_numeral_price_is_infinite :
  exists record,
    CommodityScraper.scrape_commodities Samples.scraper
      (Ok Samples.page_with_huge_price) 0%Z !! "Lead" = Some record /\
    CommodityPrice.price record = S754_infinity false /\
    PyFloat.is_finite (CommodityPrice.price record) = false.
Proof.
  exists (CommodityPrice.new "Lead" (S754_infinity false) 0%Z).
  split; [vm_compute; reflexivity|]. split; reflexivity.
Qed.

(** C3, amended: the price of every record of a run's mapping is
    non-negative, positive infinity included (it is never negative and
    never a NaN); and a row whose price text parses to none writes no
    record. *)
Theorem prices_nonneg_and_unparsed_rows_skipped
    (self : CommodityScraper.t) (now : datetime) :
  (forall fetch_page key record,
     CommodityScraper.scrape_commodities self fetch_page now !! key = Some record ->
     PyFloat.nonneg (CommodityPrice.price record) = true) /\
  (forall soup results key record,
     CommodityScraper.scrape_all_tables self soup now = Ok results ->
     results !! key = Some record ->
     PyFloat.nonneg (CommodityPrice.price record) = true) /\
  (forall results row label_cell price_cell rest,
     Bs4.find_all ["td"; "th"] row = label_cell :: price_cell :: rest ->
     CommodityScraper.parse_price
       (CommodityScraper.extract_price_from_cell price_cell) = Ok None ->
     CommodityScraper.scan_row self now results row = Ok results).
Proof.
  split; [|split].
  - intros fetch_page key record H.
    now destruct (run_well_formed self now fetch_page key record H) as (_ & _ & Hp).
  - intros soup results key record Hscan H.
    now destruct (scrape_well_formed self now soup results Hscan key record H) as (_ & _ & Hp).
  - intros results row c0 c1 rest Hcells Hparse.
    unfold CommodityScraper.scan_row. rewrite Hcells, Hparse.
    destruct (CommodityScraper.is_target_commodity self _) as [target|]; [|reflexivity].
    now destruct (PyStr.is_empty target).
Qed.

Lemma prices_nonneg_witness :
  PyFloat.nonneg (CommodityPrice.price (CommodityPrice.new "Lead" Samples.six 0%Z)) = true /\
  CommodityScraper.scan_row Samples.scraper 0%Z ∅ (Samples.row "Lead" "N/A") = Ok ∅.
Proof.
  destruct (prices_nonneg_and_unparsed_rows_skipped Samples.scraper 0%Z) as (Hrun & _ & Hrow).
  split.
  - apply (Hrun (Ok Samples.two_tables) "Lead"). vm_compute. reflexivity.
  - apply (Hrow ∅ (Samples.row "Lead" "N/A")
             (Samples.text_cell "Lead") (Samples.text_cell "N/A") []).
    + reflexivity.
    + vm_compute. reflexivity.
Defined.

(** ** The run *)

Lemma parse_price_not_text v :
  (forall s, v <> PyStr s) -> CommodityScraper.parse_price v = Raise TypeError.
Proof. intros H. destruct v as [|s|t]; [reflexivity| |reflexivity]. now destruct (H s). Qed.

Lemma scan_row_raises self now results row label_cell price_cell rest target :
  Bs4.find_all ["td"; "th"] row = label_cell :: price_cell :: rest ->
  CommodityScraper.is_target_commodity self
    (CommodityScraper.clean_commodity_name (Bs4.get_text label_cell)) = Some target ->
  target <> "" ->
  (forall s, CommodityScraper.extract_price_from_cell price_cell <> PyStr s) ->
  CommodityScraper.scan_row self now results row = Raise TypeError.
Proof.
  intros Hcells Htarget Hne Htext. unfold CommodityScraper.scan_row.
  rewrite Hcells, Htarget, (parse_price_not_text _ Htext).
  destruct target; [contradiction|reflexivity].
Qed.

Lemma for_each_raises {A S : Type} (body : S -> A -> result S) l a :
  In a l -> (forall s, exists e, body s a = Raise e) ->
  forall s, exists e, for_each l body s = Raise e.
Proof.
  intros Hin Hraise. induction l as [|b l IH]; [destruct Hin|].
  intros s. cbn [for_each].
  destruct Hin as [-> | Hin].
  - destruct (Hraise s) as [e ->]. now exists e.
  - destruct (body s b) as [s1|e]; cbn [mbind result_bind]; [now apply IH|now exists e].
Qed.

(** One row that matches a target and whose price cell yields no string,
    anywhere in the scan, empties the mapping of the whole run. *)
Lemma run_emptied_by_non_text_price self soup now row label_cell price_cell rest target :
  In row (Scan.data_rows soup) ->
  Bs4.find_all ["td"; "th"] row = label_cell :: price_cell :: rest ->
  CommodityScraper.is_target_commodity self
    (CommodityScraper.clean_commodity_name (Bs4.get_text label_cell)) = Some target ->
  target <> "" ->
  (forall s, CommodityScraper.extract_price_from_cell price_cell <> PyStr s) ->
  CommodityScraper.scrape_commodities self (Ok soup) now = ∅.
Proof.
  intros Hin Hcells Htarget Hne Htext.
  unfold CommodityScraper.scrape_commodities. cbn [mbind result_bind].
  rewrite scrape_as_rows.
  destruct (for_each_raises (CommodityScraper.scan_row self now) _ row Hin)
    with (s := (∅ : gmap string CommodityPrice.t)) as [e ->]; [|reflexivity].
  intros s. exists TypeError.
  now apply (scan_row_raises self now s row label_cell price_cell rest target).
Qed.

(** C1 on a document the run can receive: the row for Lithium is collected,
    then the row for Lead has an empty price cell; [extract] returns none,
    [parse_price] raises [TypeError], which its handler does not catch, and
    the run returns the empty mapping: the Lithium record is lost. *)
Theorem empty_price_cell_discards_collected_records :
  CommodityScraper.scrape_all_tables Samples.scraper Samples.page_before_failure 0%Z
    = Ok {[ "Lithium" := CommodityPrice.new "Lithium"
                           (S754_finite false 7036874417766400 (-46)) 0%Z ]} /\
  CommodityScraper.extract_price_from_cell Samples.empty_cell = PyNone /\
  CommodityScraper.parse_price PyNone = Raise TypeError /\
  CommodityScraper.scrape_all_tables Samples.scraper Samples.page_with_failure 0%Z
    = Raise TypeError /\
  CommodityScraper.scrape_commodities Samples.scraper (Ok Samples.page_with_failure) 0%Z
    = ∅.
Proof. vm_compute. repeat split. Qed.

(** * Further properties

    What the code shows beyond the statements above: when it raises, what
    it logs, how scans compose, which numerals it reads. *)

(** ** Which values make [parse_price] raise *)

Lemma parse_price_raise_iff v e :
  CommodityScraper.parse_price v = Raise e <-> e = TypeError /\ Outcome.is_text v = false.
Proof.
  destruct v as [|s|t]; cbn [Outcome.is_text].
  - split; [now intros [= <-]|now intros [-> _]].
  - rewrite parse_price_str. split; [discriminate|now intros [_ H]].
  - split; [now intros [= <-]|now intros [-> _]].
Qed.

(** ** Which rows make the scan raise *)

Lemma scan_row_raise_iff self now results row e :
  CommodityScraper.scan_row self now results row = Raise e <->
  e = TypeError /\ Outcome.row_aborts self row = true.
Proof.
  unfold CommodityScraper.scan_row, Outcome.row_aborts.
  destruct (Bs4.find_all ["td"; "th"] row) as [|c0 [|c1 rest]];
    try (split; [discriminate|now intros [_ H]]).
  destruct (CommodityScraper.is_target_commodity self _) as [target|];
    [|split; [discriminate|now intros [_ H]]].
  destruct (PyStr.is_empty target); cbn [negb andb];
    [split; [discriminate|now intros [_ H]]|].
  destruct (CommodityScraper.parse_price _) as [[p|]|e'] eqn:E; cbn [mbind result_bind].
  - split; [discriminate|]. intros [_ H]. apply negb_true_iff in H.
    assert (Hr : CommodityScraper.parse_price
                   (CommodityScraper.extract_price_from_cell c1) = Raise TypeError)
      by now apply parse_price_raise_iff.
    congruence.
  - split; [discriminate|]. intros [_ H]. apply negb_true_iff in H.
    assert (Hr : CommodityScraper.parse_price
                   (CommodityScraper.extract_price_from_cell c1) = Raise TypeError)
      by now apply parse_price_raise_iff.
    congruence.
  - apply parse_price_raise_iff in E. destruct E as [-> E]. rewrite E. cbn [negb].
    split; [now intros [= <-]|now intros [-> _]].
Qed.

Lemma for_each_raise_iff {A S : Type} (body : S -> A -> result S) (bad : A -> bool) l :
  (forall s a e, body s a = Raise e <-> e = TypeError /\ bad a = true) ->
  forall s e, for_each l body s = Raise e <-> e = TypeError /\ existsb bad l = true.
Proof.
  intros Hbody. induction l as [|a l IH]; intros s e; cbn [for_each existsb].
  - split; [discriminate|now intros [_ H]].
  - destruct (body s a) as [s1|e1] eqn:E; cbn [mbind result_bind].
    + rewrite IH. destruct (bad a) eqn:Ea; [|reflexivity].
      exfalso. assert (H : body s a = Raise TypeError) by now apply Hbody.
      congruence.
    + apply Hbody in E. destruct E as [-> ->]. cbn [orb].
      split; [now intros [= <-]|now intros [-> _]].
Qed.

Lemma scrape_raise_iff self soup now e :
  CommodityScraper.scrape_all_tables self soup now = Raise e <->
  e = TypeError /\ existsb (Outcome.row_aborts self) (Scan.data_rows soup) = true.
Proof.
  rewrite scrape_as_rows. apply for_each_raise_iff.
  intros s a e'. apply scan_row_raise_iff.
Qed.

(** X1: a scan raises nothing but [TypeError], and raises it exactly when
    one of the rows it visits matches a non-empty target while its price
    cell yields no string; otherwise it returns a mapping. *)
Theorem scan_raises_exactly_on_aborting_row
    (self : CommodityScraper.t) (soup : Bs4.node) (now : datetime) :
  (forall e,
     CommodityScraper.scrape_all_tables self soup now = Raise e <->
     e = TypeError /\
     exists row, In row (Scan.data_rows soup) /\ Outcome.row_aborts self row = true) /\
  ((exists results, CommodityScraper.scrape_all_tables self soup now = Ok results) <->
   forall row, In row (Scan.data_rows soup) -> Outcome.row_aborts self row = false).
Proof.
  split.
  - intros e. rewrite scrape_raise_iff, existsb_exists. reflexivity.
  - split.
    + intros [results H] row Hrow.
      destruct (Outcome.row_aborts self row) eqn:E; [|reflexivity].
      assert (Hr : CommodityScraper.scrape_all_tables self soup now = Raise TypeError).
      { apply scrape_raise_iff. split; [reflexivity|]. apply existsb_exists. now exists row. }
      congruence.
    + intros H. destruct (CommodityScraper.scrape_all_tables self soup now) as [r|e] eqn:E;
        [now exists r|].
      apply scrape_raise_iff in E. destruct E as [_ E].
      apply existsb_exists in E. destruct E as (row & Hrow & Hbad).
      rewrite (H row Hrow) in Hbad. discriminate.
Qed.

(** X2: [parse_price] returns on every string, and raises exactly on a
    value that is not a string, always with [TypeError]. *)
Theorem parse_price_raises_exactly_on_non_text :
  (forall s, exists r, CommodityScraper.parse_price (PyStr s) = Ok r) /\
  (forall v e,
     CommodityScraper.parse_price v = Raise e <->
     e = TypeError /\ forall s, v <> PyStr s).
Proof.
  split.
  - intros s. rewrite parse_price_str. now eexists.
  - intros v e. rewrite parse_price_raise_iff. split; intros [-> H]; (split; [reflexivity|]).
    + intros s ->. discriminate.
    + destruct v as [|s|t]; [reflexivity| |reflexivity]. now destruct (H s).
Qed.

(** ** Visible text *)

Lemma concat_nonempty x l : x <> "" -> String.concat "" (x :: l) <> "".
Proof.
  intros Hx. destruct l as [|y l]; cbn [String.concat]; [exact Hx|].
  destruct x as [|c x]; [contradiction|discriminate].
Qed.

Lemma all_strings_nonempty n x : In x (Bs4.all_strings n) -> x <> "".
Proof.
  unfold Bs4.all_strings. rewrite in_flat_map. intros (d & _ & Hx).
  destruct d as [s|]; [|destruct Hx].
  destruct (PyStr.strip s) as [|c t] eqn:E; cbn [PyStr.is_empty] in Hx; [destruct Hx|].
  destruct Hx as [<-|[]]. discriminate.
Qed.

Lemma get_text_empty_iff n : Bs4.get_text n = "" <-> Bs4.all_strings n = [].
Proof.
  unfold Bs4.get_text. split.
  - destruct (Bs4.all_strings n) as [|x l] eqn:E; [reflexivity|].
    intros H. exfalso. apply (concat_nonempty x l); [|exact H].
    apply (all_strings_nonempty n). rewrite E. now left.
  - now intros ->.
Qed.

Lemma flat_map_nil {A B : Type} (f : A -> list B) l :
  flat_map f l = [] <-> forall a, In a l -> f a = [].
Proof.
  induction l as [|a l IH]; cbn [flat_map]; [easy|].
  split.
  - intros H. apply app_eq_nil in H. destruct H as [Ha Hl].
    intros b [<-|Hb]; [exact Ha|]. now apply IH.
  - intros H. rewrite (H a) by now left. apply IH. intros b Hb. apply H. now right.
Qed.

Lemma all_strings_empty_iff n :
  Bs4.all_strings n = [] <->
  forall s, In (Bs4.NavigableString s) (Bs4.descendants n) -> PyStr.strip s = "".
Proof.
  unfold Bs4.all_strings. rewrite flat_map_nil. split.
  - intros H s Hs. specialize (H _ Hs). cbn beta iota zeta in H.
    destruct (PyStr.strip s) as [|c t]; [reflexivity|discriminate H].
  - intros H [s|name attrs children] Hd; [|reflexivity].
    cbn zeta. now rewrite (H s Hd).
Qed.

Lemma descendant_text_empty c d :
  In d (Bs4.descendants c) -> Bs4.get_text c = "" -> Bs4.get_text d = "".
Proof.
  intros Hd. rewrite !get_text_empty_iff, !all_strings_empty_iff.
  intros H s Hs. apply H. now apply (descendants_trans c d).
Qed.

(** ** What the strategies return *)

Lemma head_filter_some {A : Type} (f : A -> bool) l x :
  head (List.filter f l) = Some x -> In x l /\ f x = true.
Proof.
  intros H. apply filter_In. destruct (List.filter f l) as [|y l']; [discriminate|].
  injection H as ->. now left.
Qed.

Lemma head_filter_none {A : Type} (f : A -> bool) l :
  head (List.filter f l) = None <-> existsb f l = false.
Proof.
  induction l as [|a l IH]; cbn [List.filter existsb]; [easy|].
  destruct (f a); cbn [orb head]; [easy|exact IH].
Qed.

Lemma of_found_truthy o :
  truthy (CommodityScraper.of_found o) = match o with Some _ => true | None => false end.
Proof. now destruct o. Qed.

Lemma strategy_inline_text cell :
  CommodityScraper.strategy_inline cell = PyNone \/
  exists s, CommodityScraper.strategy_inline cell = PyStr s /\ s <> "" /\
            exists e, In e (Bs4.descendants cell) /\ s = Bs4.get_text e.
Proof.
  unfold CommodityScraper.strategy_inline.
  destruct (head _) as [s|] eqn:E; [right|now left].
  apply head_filter_some in E. destruct E as [Hin Hdigit].
  exists s. split; [reflexivity|]. split.
  - intros ->. discriminate.
  - apply in_map_iff in Hin. destruct Hin as (e & <- & He).
    apply in_flat_map in He. destruct He as (tag & _ & He).
    apply filter_In in He. exists e. now split.
Qed.

Lemma strategy_inline_blank cell :
  Bs4.get_text cell = "" -> CommodityScraper.strategy_inline cell = PyNone.
Proof.
  intros H. destruct (strategy_inline_text cell) as [->|(s & _ & Hs & e & He & ->)];
    [reflexivity|].
  now rewrite (descendant_text_empty cell e He H) in Hs.
Qed.

Lemma marked_found cell :
  existsb Outcome.marked (Bs4.descendants cell) = false <->
  Bs4.find (Bs4.id_is "p") cell = None /\ Bs4.find (Bs4.class_search "price") cell = None.
Proof.
  unfold Bs4.find. rewrite !head_filter_none. unfold Outcome.marked.
  induction (Bs4.descendants cell) as [|d l IH]; cbn [existsb]; [easy|].
  rewrite !orb_false_iff, IH. tauto.
Qed.

(** X3: [extract] returns an element exactly when the cell has, below it,
    an element whose id is [p] or whose class contains [price]; the element
    it returns is such a descendant, the one with the id if there is one;
    and [extract] returns none exactly when the cell has no such element
    and no visible text. *)
Theorem extract_element_and_none
    (cell : Bs4.node) :
  (forall e, CommodityScraper.extract_price_from_cell cell = PyTag e ->
             In e (Bs4.descendants cell) /\ Outcome.marked e = true) /\
  ((exists e, CommodityScraper.extract_price_from_cell cell = PyTag e) <->
   exists d, In d (Bs4.descendants cell) /\ Outcome.marked d = true) /\
  (forall e, Bs4.find (Bs4.id_is "p") cell = Some e ->
             CommodityScraper.extract_price_from_cell cell = PyTag e) /\
  (CommodityScraper.extract_price_from_cell cell = PyNone <->
   (forall d, In d (Bs4.descendants cell) -> Outcome.marked d = false) /\
   Bs4.get_text cell = "").
Proof.
  pose proof (marked_found cell) as Hmarked.
  rewrite extract_unfold.
  unfold CommodityScraper.strategy_id, CommodityScraper.strategy_class in *.
  rewrite !of_found_truthy.
  assert (Hall : existsb Outcome.marked (Bs4.descendants cell) = false <->
                 forall d, In d (Bs4.descendants cell) -> Outcome.marked d = false).
  { rewrite <- not_true_iff_false, existsb_exists. split.
    - intros H d Hd. destruct (Outcome.marked d) eqn:E; [|reflexivity].
      exfalso. apply H. now exists d.
    - intros H (d & Hd & E). rewrite (H d Hd) in E. discriminate. }
  destruct (Bs4.find (Bs4.id_is "p") cell) as [e1|] eqn:E1.
  { apply head_filter_some in E1. destruct E1 as [Hin Hid].
    assert (Hm : Outcome.marked e1 = true) by (unfold Outcome.marked; now rewrite Hid).
    cbn [CommodityScraper.of_found]. split; [|split; [|split]].
    - now intros e [= <-].
    - split; [intros _; now exists e1|intros _; now exists e1].
    - now intros e [= <-].
    - split; [discriminate|]. intros [H _]. rewrite (H e1 Hin) in Hm. discriminate. }
  destruct (Bs4.find (Bs4.class_search "price") cell) as [e2|] eqn:E2.
  { apply head_filter_some in E2. destruct E2 as [Hin Hcl].
    assert (Hm : Outcome.marked e2 = true)
      by (unfold Outcome.marked; rewrite Hcl; apply orb_true_r).
    cbn [CommodityScraper.of_found]. split; [|split; [|split]].
    - now intros e [= <-].
    - split; [intros _; now exists e2|intros _; now exists e2].
    - discriminate.
    - split; [discriminate|]. intros [H _]. rewrite (H e2 Hin) in Hm. discriminate. }
  assert (Hnone : existsb Outcome.marked (Bs4.descendants cell) = false)
    by now apply Hmarked.
  assert (Hno : ~ exists d, In d (Bs4.descendants cell) /\ Outcome.marked d = true).
  { intros (d & Hd & E). rewrite (proj1 Hall Hnone d Hd) in E. discriminate. }
  cbn [CommodityScraper.of_found].
  destruct (strategy_inline_text cell) as [->|(s & -> & Hs & e3 & He3 & ->)];
    cbn [truthy].
  - destruct (PyStr.is_empty (Bs4.get_text cell)) eqn:Et.
    + split; [discriminate|]. split; [split; [now intros [e H]|now intros H]|].
      split; [discriminate|]. split; [|reflexivity].
      intros _. split; [now apply Hall|]. now destruct (Bs4.get_text cell).
    + split; [discriminate|]. split; [split; [now intros [e H]|now intros H]|].
      split; [discriminate|]. split; [discriminate|].
      intros [_ H]. rewrite H in Et. discriminate.
  - assert (Hne : PyStr.is_empty (Bs4.get_text e3) = false)
      by now destruct (Bs4.get_text e3).
    rewrite Hne. cbn [negb].
    split; [discriminate|]. split; [split; [now intros [e H]|now intros H]|].
    split; [discriminate|]. split; [discriminate|].
    intros [_ H]. now rewrite (descendant_text_empty cell e3 He3 H) in Hs.
Qed.

(** ** What a row adds to the mapping *)

(** What a row does to any mapping: it raises, leaves it as it is, or
    writes one record, the same whatever the mapping holds. *)
Lemma scan_row_effect self now row :
  (exists e, forall s, CommodityScraper.scan_row self now s row = Raise e) \/
  (forall s, CommodityScraper.scan_row self now s row = Ok s) \/
  (exists target p,
     Scan.row_quote self row = Some (target, p) /\ target <> "" /\
     forall s, CommodityScraper.scan_row self now s row =
               Ok (<[target := CommodityPrice.new target p now]> s)).
Proof.
  unfold CommodityScraper.scan_row, Scan.row_quote.
  destruct (Bs4.find_all ["td"; "th"] row) as [|c0 [|c1 rest]]; try (right; left; reflexivity).
  destruct (CommodityScraper.is_target_commodity self _) as [target|];
    [|right; left; reflexivity].
  destruct (PyStr.is_empty target) eqn:Et; [right; left; reflexivity|].
  destruct (CommodityScraper.parse_price _) as [[p|]|e]; cbn [mbind result_bind].
  - right. right. exists target, p. split; [reflexivity|]. split; [|reflexivity].
    intros ->. discriminate.
  - right. left. reflexivity.
  - left. now exists e.
Qed.

Lemma for_each_from_empty self now rows s :
  for_each rows (CommodityScraper.scan_row self now) s =
  match for_each rows (CommodityScraper.scan_row self now) ∅ with
  | Ok r => Ok (r ∪ s)
  | Raise e => Raise e
  end.
Proof.
  revert s. induction rows as [|row rows IH]; intros s; cbn [for_each].
  - now rewrite (left_id_L ∅ (∪)).
  - destruct (scan_row_effect self now row) as [[e H]|[H|(t & p & _ & _ & H)]];
      rewrite !H; cbn [mbind result_bind].
    + reflexivity.
    + apply IH.
    + rewrite (IH (<[t:=_]> s)), (IH (<[t:=_]> ∅)).
      destruct (for_each rows _ ∅) as [r|e]; [|reflexivity].
      f_equal. rewrite !insert_union_singleton_l, (right_id_L ∅ (∪)).
      now rewrite (assoc_L (∪)).
Qed.

Lemma data_rows_app name attrs cs1 cs2 :
  Scan.data_rows (Bs4.Tag name attrs (cs1 ++ cs2)) =
  (Scan.data_rows (Bs4.Tag name attrs cs1) ++ Scan.data_rows (Bs4.Tag name attrs cs2))%list.
Proof.
  unfold Scan.data_rows, Bs4.find_all.
  now rewrite !descendants_tag, flat_map_app, List.filter_app, flat_map_app.
Qed.

(** X4: scanning a document whose content is that of two documents one
    after the other gives the second scan's mapping completed by the
    first's: where both hold a record the second's wins; and if either
    scan raises, so does the whole. *)
Theorem scan_of_concatenation
    (self : CommodityScraper.t) (now : datetime)
    (name : string) (attrs : list (string * string)) (cs1 cs2 : list Bs4.node) :
  CommodityScraper.scrape_all_tables self (Bs4.Tag name attrs (cs1 ++ cs2)) now =
  match CommodityScraper.scrape_all_tables self (Bs4.Tag name attrs cs1) now,
        CommodityScraper.scrape_all_tables self (Bs4.Tag name attrs cs2) now with
  | Ok first, Ok second => Ok (second ∪ first)
  | Raise e, _ => Raise e
  | Ok _, Raise e => Raise e
  end.
Proof.
  rewrite !scrape_as_rows, data_rows_app, for_each_app.
  destruct (for_each (Scan.data_rows (Bs4.Tag name attrs cs1)) _ ∅) as [first|e];
    cbn [mbind result_bind]; [|reflexivity].
  apply for_each_from_empty.
Qed.

(** ** Which targets get a record *)

Lemma scan_row_by_quote self now s row mid :
  CommodityScraper.scan_row self now s row = Ok mid ->
  mid = match Scan.row_quote self row with
        | Some (target, p) =>
            if PyStr.is_empty target then s
            else <[target := CommodityPrice.new target p now]> s
        | None => s
        end.
Proof.
  intros H. destruct (Scan.row_quote self row) as [[t p]|] eqn:Eq.
  - destruct t as [|c t]; cbn [PyStr.is_empty].
    + apply scan_row_cases in H. destruct H as [->|(t' & p' & Hq & Hne & _)]; [reflexivity|].
      congruence.
    + rewrite (scan_row_quote self now s row _ p Eq) in H by discriminate.
      now injection H as <-.
  - apply scan_row_cases in H. destruct H as [->|(t' & p' & Hq & _)]; [reflexivity|].
    congruence.
Qed.

Lemma for_each_recorded self now rows s results key :
  for_each rows (CommodityScraper.scan_row self now) s = Ok results ->
  (is_Some (results !! key) <->
   is_Some (s !! key) \/
   key <> "" /\ exists row p, In row rows /\ Scan.row_quote self row = Some (key, p)).
Proof.
  revert s. induction rows as [|row rows IH]; intros s; cbn [for_each].
  - intros [= <-]. split; [now left|]. now intros [H|(_ & r & p & [] & _)].
  - destruct (CommodityScraper.scan_row self now s row) as [mid|e] eqn:E; [|discriminate].
    cbn [mbind result_bind]. intros H. rewrite (IH mid H). clear IH H.
    apply scan_row_by_quote in E.
    assert (Hmid : is_Some (mid !! key) <->
                   is_Some (s !! key) \/
                   key <> "" /\ exists p, Scan.row_quote self row = Some (key, p)).
    { subst mid. destruct (Scan.row_quote self row) as [[t p]|].
      - destruct t as [|c t]; cbn [PyStr.is_empty].
        + split; [now left|]. intros [H|(Hk & q & [= <- _])]; [exact H|contradiction].
        + rewrite lookup_insert. case_decide as Hk.
          * subst key. split; [|now eexists]. intros _. right.
            split; [discriminate|]. now exists p.
          * split; [now left|]. intros [H|(_ & q & [= <- _])]; [exact H|contradiction].
      - split; [now left|]. now intros [H|(_ & q & [=])]. }
    rewrite Hmid. split.
    + intros [[H|(Hk & p & Hq)]|(Hk & r & p & Hr & Hq)].
      * now left.
      * right. split; [exact Hk|]. exists row, p. split; [now left|exact Hq].
      * right. split; [exact Hk|]. exists r, p. split; [now right|exact Hq].
    + intros [H|(Hk & r & p & [<-|Hr] & Hq)].
      * left. now left.
      * left. right. split; [exact Hk|]. now exists p.
      * right. split; [exact Hk|]. now exists r, p.
Qed.

Lemma recorded_keys_quoted self soup now results key :
  CommodityScraper.scrape_all_tables self soup now = Ok results ->
  (is_Some (results !! key) <->
   key <> "" /\
   exists row p, In row (Scan.data_rows soup) /\ Scan.row_quote self row = Some (key, p)).
Proof.
  rewrite scrape_as_rows. intros H.
  rewrite (for_each_recorded self now _ ∅ results key H), lookup_empty.
  split; [|now right]. intros [[x Hx]|Hq]; [discriminate|exact Hq].
Qed.

(** X5: when the scan returns, a name is a key of the mapping exactly when
    it is not empty and some visited row matches it with a price that
    parses; so a target no row supplies is absent from the mapping. *)
Theorem recorded_exactly_when_quoted
    (self : CommodityScraper.t) (soup : Bs4.node) (now : datetime)
    (results : gmap string CommodityPrice.t) (key : string) :
  CommodityScraper.scrape_all_tables self soup now = Ok results ->
  (is_Some (results !! key) <->
   key <> "" /\
   exists row p, In row (Scan.data_rows soup) /\ Scan.row_quote self row = Some (key, p)) /\
  (results !! key = None <->
   key = "" \/
   forall row p, In row (Scan.data_rows soup) -> Scan.row_quote self row <> Some (key, p)).
Proof.
  intros H. pose proof (recorded_keys_quoted self soup now results key H) as Hq.
  split; [exact Hq|]. rewrite eq_None_not_Some, Hq. split.
  - intros Hno. destruct (String.eqb_spec key "") as [->|Hne]; [now left|right].
    intros row p Hrow Hrq. apply Hno. split; [exact Hne|]. now exists row, p.
  - intros [->|Hno] (Hne & row & p & Hrow & Hrq); [contradiction|].
    now apply (Hno row p).
Qed.

Lemma recorded_exactly_when_quoted_witness :
  is_Some (CommodityScraper.scrape_commodities Samples.scraper (Ok Samples.two_tables) 0%Z
             !! "Cobalt") /\
  CommodityScraper.scrape_commodities Samples.scraper (Ok Samples.two_tables) 0%Z
    !! "Lithium" = None.
Proof.
  pose proof (recorded_exactly_when_quoted Samples.scraper Samples.two_tables 0%Z
                (CommodityScraper.scrape_commodities Samples.scraper (Ok Samples.two_tables) 0%Z))
    as H.
  split.
  - apply (H "Cobalt"); [vm_compute; reflexivity|]. split; [discriminate|].
    exists (Samples.row "Cobalt ore" "7"). eexists. split; [right; now left|].
    vm_compute. reflexivity.
  - vm_compute. reflexivity.
Defined.

(** ** What every record carries *)

Lemma scan_records_stamped self now rows s results :
  (forall key record, s !! key = Some record ->
                      record = CommodityPrice.new key (CommodityPrice.price record) now) ->
  for_each rows (CommodityScraper.scan_row self now) s = Ok results ->
  forall key record, results !! key = Some record ->
                     record = CommodityPrice.new key (CommodityPrice.price record) now.
Proof.
  intros Hs H. revert H.
  apply (for_each_invariant
           (fun m : gmap string CommodityPrice.t =>
              forall key record, m !! key = Some record ->
                record = CommodityPrice.new key (CommodityPrice.price record) now));
    [|exact Hs].
  intros m row m' Hm E. apply scan_row_cases in E.
  destruct E as [->|(t & p & _ & _ & ->)]; [exact Hm|].
  intros key record. rewrite lookup_insert. case_decide as Hk.
  - subst key. now intros [= <-].
  - apply Hm.
Qed.

(** X6: every record of the mapping a run returns carries the one clock
    reading of the run, the currency [USD] and the unit [per tonne]: it is
    the record built from its key, its price and that reading. *)
Theorem records_share_the_run_timestamp
    (self : CommodityScraper.t) (fetch_page : result Bs4.node) (now : datetime)
    (key : string) (record : CommodityPrice.t) :
  CommodityScraper.scrape_commodities self fetch_page now !! key = Some record ->
  record = CommodityPrice.new key (CommodityPrice.price record) now /\
  CommodityPrice.timestamp record = now /\
  CommodityPrice.currency record = "USD" /\
  CommodityPrice.unit record = "per tonne".
Proof.
  intros H.
  assert (E : record = CommodityPrice.new key (CommodityPrice.price record) now).
  { revert H. unfold CommodityScraper.scrape_commodities.
    destruct fetch_page as [soup|e]; cbn [mbind result_bind];
      [|now rewrite lookup_empty].
    destruct (CommodityScraper.scrape_all_tables self soup now) as [results|e] eqn:Es;
      [|now rewrite lookup_empty].
    rewrite scrape_as_rows in Es.
    apply (scan_records_stamped self now (Scan.data_rows soup) ∅ results); [|exact Es].
    intros k r. now rewrite lookup_empty. }
  split; [exact E|]. rewrite E. now repeat split.
Qed.

Lemma records_share_the_run_timestamp_witness :
  CommodityPrice.timestamp (CommodityPrice.new "Lead" Samples.six 7%Z) = 7%Z.
Proof.
  apply (records_share_the_run_timestamp Samples.scraper (Ok Samples.two_tables) 7%Z "Lead").
  vm_compute. reflexivity.
Defined.

(** ** The clock reading does not influence the scan *)

Lemma retime_new ts key p ts' :
  Outcome.retime ts (CommodityPrice.new key p ts') = CommodityPrice.new key p ts.
Proof. reflexivity. Qed.

Lemma for_each_retimed self t1 t2 rows s :
  for_each rows (CommodityScraper.scan_row self t2) (Outcome.retime t2 <$> s) =
  match for_each rows (CommodityScraper.scan_row self t1) s with
  | Ok r => Ok (Outcome.retime t2 <$> r)
  | Raise e => Raise e
  end.
Proof.
  revert s. induction rows as [|row rows IH]; intros s; cbn [for_each]; [reflexivity|].
  assert (Hrow : CommodityScraper.scan_row self t2 (Outcome.retime t2 <$> s) row =
                 match CommodityScraper.scan_row self t1 s row with
                 | Ok r => Ok (Outcome.retime t2 <$> r)
                 | Raise e => Raise e
                 end).
  { unfold CommodityScraper.scan_row.
    destruct (Bs4.find_all ["td"; "th"] row) as [|c0 [|c1 rest]]; try reflexivity.
    destruct (CommodityScraper.is_target_commodity self _) as [target|]; [|reflexivity].
    destruct (PyStr.is_empty target); [reflexivity|].
    destruct (CommodityScraper.parse_price _) as [[p|]|e]; cbn [mbind result_bind];
      try reflexivity.
    now rewrite fmap_insert. }
  rewrite Hrow. destruct (CommodityScraper.scan_row self t1 s row) as [mid|e];
    cbn [mbind result_bind]; [apply IH|reflexivity].
Qed.

(** X7: two scans of the same document at two clock readings end alike,
    and the mapping of the second is that of the first with each record
    moved to the second reading: names and prices do not depend on the
    time of the run. *)
Theorem scan_independent_of_clock
    (self : CommodityScraper.t) (soup : Bs4.node) (t1 t2 : datetime) :
  CommodityScraper.scrape_all_tables self soup t2 =
  match CommodityScraper.scrape_all_tables self soup t1 with
  | Ok results => Ok (Outcome.retime t2 <$> results)
  | Raise e => Raise e
  end.
Proof.
  rewrite !scrape_as_rows.
  rewrite <- (for_each_retimed self t1 t2 _ ∅). now rewrite fmap_empty.
Qed.

(** ** How many records *)

Lemma size_list_to_set_le (l : list string) :
  size (list_to_set l : gset string) <= List.length l.
Proof.
  induction l as [|x l IH]; cbn [list_to_set List.length].
  - now rewrite size_empty.
  - pose proof (size_union_alt ({[x]} : gset string) (list_to_set l)) as H.
    assert (H1 : size (list_to_set l ∖ {[x]} : gset string) <=
                 size (list_to_set l : gset string)).
    { apply subseteq_size. intros y Hy. now apply elem_of_difference in Hy. }
    rewrite size_singleton in H. lia.
Qed.

(** X8: the mapping a run returns never holds more records than there are
    configured targets. *)
Theorem at_most_one_record_per_target
    (self : CommodityScraper.t) (fetch_page : result Bs4.node) (now : datetime) :
  size (CommodityScraper.scrape_commodities self fetch_page now) <=
  List.length (CommodityScraper.target_commodities self).
Proof.
  pose proof (run_well_formed self now fetch_page) as Hwf.
  set (m := CommodityScraper.scrape_commodities self fetch_page now) in *.
  rewrite <- size_dom.
  etransitivity; [|apply size_list_to_set_le].
  apply subseteq_size. intros key Hkey.
  apply elem_of_dom in Hkey. destruct Hkey as [record Hrec].
  apply elem_of_list_to_set, list_elem_of_In.
  now destruct (Hwf key record Hrec).
Qed.

(** ** Counting characters *)

Lemma str_count_app p a b :
  Outcome.str_count p (a +:+ b) = Outcome.str_count p a + Outcome.str_count p b.
Proof.
  induction a as [|c a IH]; simpl; [reflexivity|].
  rewrite IH. lia.
Qed.

Lemma str_exists_app p a b :
  PyStr.str_exists p (a +:+ b) = PyStr.str_exists p a || PyStr.str_exists p b.
Proof.
  induction a as [|c a IH]; simpl; [reflexivity|].
  now rewrite IH, orb_assoc.
Qed.

Lemma str_forall_app p a b :
  PyStr.str_forall p (a +:+ b) = PyStr.str_forall p a && PyStr.str_forall p b.
Proof.
  induction a as [|c a IH]; simpl; [reflexivity|].
  now rewrite IH, andb_assoc.
Qed.

Lemma str_count_filter p q s :
  (forall c, p c = true -> q c = true) ->
  Outcome.str_count p (PyStr.str_filter q s) = Outcome.str_count p s.
Proof.
  intros H. induction s as [|c s IH]; cbn [PyStr.str_filter Outcome.str_count]; [reflexivity|].
  destruct (q c) eqn:Eq; cbn [Outcome.str_count]; [now rewrite IH|].
  destruct (p c) eqn:Ep; [|exact IH]. rewrite (H c Ep) in Eq. discriminate.
Qed.

Lemma str_exists_filter p q s :
  (forall c, p c = true -> q c = true) ->
  PyStr.str_exists p (PyStr.str_filter q s) = PyStr.str_exists p s.
Proof.
  intros H. induction s as [|c s IH]; cbn [PyStr.str_filter PyStr.str_exists]; [reflexivity|].
  destruct (q c) eqn:Eq; cbn [PyStr.str_exists]; [now rewrite IH|].
  destruct (p c) eqn:Ep; [|exact IH]. rewrite (H c Ep) in Eq. discriminate.
Qed.

Lemma digits_no_period d :
  PyStr.str_forall PyStr.is_digit d = true -> Outcome.str_count Outcome.is_period d = 0.
Proof.
  induction d as [|c d IH]; cbn [PyStr.str_forall Outcome.str_count]; [reflexivity|].
  intros H. apply andb_true_iff in H. destruct H as [Hc Hd]. rewrite (IH Hd).
  destruct (Outcome.is_period c) eqn:E; [|reflexivity].
  apply Ascii.eqb_eq in E. subst c. discriminate.
Qed.

Lemma digits_exist d :
  PyStr.str_forall PyStr.is_digit d = true ->
  PyStr.str_exists PyStr.is_digit d = negb (PyStr.is_empty d).
Proof.
  destruct d as [|c d]; [reflexivity|]. cbn [PyStr.str_forall PyStr.str_exists PyStr.is_empty].
  intros H. apply andb_true_iff in H. now destruct H as [-> _].
Qed.

(** ** The numerals [float] accepts among cleaned texts *)

Lemma span_digits_split s d r :
  PyFloat.span_digits s = (d, r) ->
  s = d +:+ r /\ PyStr.str_forall PyStr.is_digit d = true /\
  (r = "" \/ exists c r', r = String c r' /\ PyStr.is_digit c = false).
Proof.
  revert d r. induction s as [|c s IH]; intros d r; cbn [PyFloat.span_digits].
  - intros [= <- <-]. repeat split. now left.
  - destruct (PyStr.is_digit c) eqn:Ec.
    + destruct (PyFloat.span_digits s) as [d0 r0]. intros [= <- <-].
      destruct (IH d0 r0 eq_refl) as (-> & Hd & Hr).
      simpl. now rewrite Ec.
    + intros [= <- <-]. repeat split. right. now exists c, s.
Qed.

Lemma span_digits_app d r :
  PyStr.str_forall PyStr.is_digit d = true ->
  (r = "" \/ exists c r', r = String c r' /\ PyStr.is_digit c = false) ->
  PyFloat.span_digits (d +:+ r) = (d, r).
Proof.
  intros Hd Hr. induction d as [|c d IH].
  - destruct Hr as [->|(c & r' & -> & Hc)]; simpl; [reflexivity|].
    now rewrite Hc.
  - simpl in Hd. apply andb_true_iff in Hd. destruct Hd as [Hc Hd].
    simpl. now rewrite Hc, (IH Hd).
Qed.

Lemma of_string_numeral s :
  PyStr.str_forall PyFloat.numeral_char s = true ->
  PyFloat.of_string s =
  match PyFloat.parse_decimal s with
  | Some (m, e10) => Ok (PyFloat.of_decimal false m e10)
  | None => Raise ValueError
  end.
Proof.
  intros Hs. unfold PyFloat.of_string, PyFloat.is_ascii.
  assert (Hall : forall q : ascii -> bool,
            (forall c, PyFloat.numeral_char c = true -> q c = true) ->
            PyStr.str_forall q s = true).
  { intros q Hq. now apply (str_forall_impl PyFloat.numeral_char). }
  rewrite (Hall (fun c => (PyStr.code c <? 128)%nat))
    by (intros c Hc; apply numeral_char_facts in Hc; now destruct Hc as (_ & -> & _)).
  rewrite (forall_none_lstrip PyFloat.is_c_space s), (forall_none_rstrip PyFloat.is_c_space s)
    by (apply Hall; intros c Hc; apply numeral_char_facts in Hc; now destruct Hc as [-> _]).
  rewrite (drop_underscores_none s);
    [|apply Hall; intros c Hc; apply numeral_char_facts in Hc;
      now destruct Hc as (_ & _ & -> & _)|exact I].
  assert (Hsign : PyFloat.take_sign s = (false, s)).
  { destruct s as [|c s']; [reflexivity|]. cbn [PyStr.str_forall] in Hs.
    apply andb_true_iff in Hs. destruct Hs as [Hc _].
    apply numeral_char_facts in Hc. destruct Hc as (_ & _ & _ & Hm & Hp & _).
    cbn [PyFloat.take_sign]. now rewrite Hm, Hp. }
  rewrite Hsign.
  assert (Hword : forall a w, (a = "i" \/ a = "n")%char ->
                    String.eqb (PyStr.lower s) (String a w) = false).
  { intros a w Ha. destruct s as [|c s']; [reflexivity|]. cbn [PyStr.str_forall] in Hs.
    apply andb_true_iff in Hs. destruct Hs as [Hc _].
    apply numeral_char_facts in Hc. destruct Hc as (_ & _ & _ & _ & _ & Hi & Hn).
    cbn [PyStr.lower PyStr.str_map String.eqb].
    destruct Ha as [-> | ->]; [now rewrite Hi|now rewrite Hn]. }
  rewrite !Hword by auto. reflexivity.
Qed.

Lemma numeral_not_digit c :
  PyFloat.numeral_char c = true -> PyStr.is_digit c = false -> c = "."%char.
Proof.
  unfold PyFloat.numeral_char. intros H Hd. rewrite Hd in H. now apply Ascii.eqb_eq in H.
Qed.

Lemma not_exponent_mark : (Ascii.eqb "." "e" || Ascii.eqb "." "E") = false.
Proof. reflexivity. Qed.

Lemma parse_decimal_numeral s :
  PyStr.str_forall PyFloat.numeral_char s = true ->
  is_Some (PyFloat.parse_decimal s) <->
  PyStr.str_exists PyStr.is_digit s = true /\ Outcome.str_count Outcome.is_period s <= 1.
Proof.
  intros Hs. unfold PyFloat.parse_decimal.
  destruct (PyFloat.span_digits s) as [ip r1] eqn:E1.
  apply span_digits_split in E1. destruct E1 as (-> & Hip & Hr1).
  rewrite str_forall_app in Hs. apply andb_true_iff in Hs. destruct Hs as [_ Hs].
  rewrite str_exists_app, str_count_app, (digits_no_period ip Hip), (digits_exist ip Hip).
  destruct Hr1 as [->|(c & r & -> & Hc)].
  - cbn [PyStr.is_empty PyStr.str_exists Outcome.str_count andb].
    rewrite andb_true_r, orb_false_r.
    destruct (PyStr.is_empty ip); cbn [negb]; split; try easy.
    + now intros [x Hx].
    + intros _. split; [reflexivity|lia].
  - cbn [PyStr.str_forall] in Hs. apply andb_true_iff in Hs. destruct Hs as [Hcn Hr].
    pose proof (numeral_not_digit c Hcn Hc) as ->.
    rewrite Ascii.eqb_refl.
    destruct (PyFloat.span_digits r) as [fp r2] eqn:E2.
    apply span_digits_split in E2. destruct E2 as (-> & Hfp & Hr2).
    rewrite str_forall_app in Hr. apply andb_true_iff in Hr. destruct Hr as [_ Hr].
    cbn [PyStr.str_exists Outcome.str_count].
    change (PyStr.is_digit ".") with false. change (Outcome.is_period ".") with true.
    rewrite str_exists_app, str_count_app, (digits_no_period fp Hfp), (digits_exist fp Hfp).
    cbn [orb].
    destruct Hr2 as [->|(c2 & r3 & -> & Hc2)].
    + cbn [PyStr.str_exists Outcome.str_count]. rewrite orb_false_r.
      destruct (PyStr.is_empty ip), (PyStr.is_empty fp); cbn [negb andb orb]; split;
        try (now intros [x Hx]); try (intros _; split; [reflexivity|lia]); try easy.
    + cbn [PyStr.str_forall] in Hr. apply andb_true_iff in Hr. destruct Hr as [Hc2n _].
      pose proof (numeral_not_digit c2 Hc2n Hc2) as ->.
      rewrite not_exponent_mark. cbn [Outcome.str_count].
      change (Outcome.is_period ".") with true.
      destruct (PyStr.is_empty ip && PyStr.is_empty fp); split;
        try (now intros [x Hx]); intros [_ H]; lia.
Qed.

Lemma filter_filter p q s :
  PyStr.str_filter q (PyStr.str_filter p s) = PyStr.str_filter (fun c => p c && q c) s.
Proof.
  induction s as [|c s IH]; [reflexivity|]. simpl.
  destruct (p c); simpl; [|exact IH]. destruct (q c); now rewrite IH.
Qed.

Lemma numeral_char_split c :
  Spec.price_char c && Spec.not_comma c = PyFloat.numeral_char c.
Proof. destruct c as [[] [] [] [] [] [] [] []]; vm_compute; reflexivity. Qed.

Lemma filter_filter_numeral s :
  PyStr.str_filter Spec.not_comma (PyStr.str_filter Spec.price_char s) =
  PyStr.str_filter PyFloat.numeral_char s.
Proof. rewrite filter_filter. apply str_filter_ext, numeral_char_split. Qed.

Lemma append_empty_r s : s +:+ "" = s.
Proof.
  induction s as [|c s IH]; [reflexivity|].
  change (String c (s +:+ "") = String c s). now f_equal.
Qed.

Lemma span_digits_all d :
  PyStr.str_forall PyStr.is_digit d = true -> PyFloat.span_digits d = (d, "").
Proof.
  intros Hd. pose proof (span_digits_app d "" Hd (or_introl eq_refl)) as H.
  now rewrite append_empty_r in H.
Qed.

Lemma parse_by_numeral s :
  Spec.parse s =
  let numeral := PyStr.str_filter PyFloat.numeral_char s in
  if PyStr.is_empty numeral then None
  else match PyFloat.parse_decimal numeral with
       | Some (m, e10) => Some (PyFloat.of_decimal false m e10)
       | None => None
       end.
Proof.
  unfold Spec.parse. rewrite filter_filter_numeral. cbn zeta.
  destruct (PyStr.is_empty _); [reflexivity|].
  rewrite of_string_numeral by apply forall_filter.
  now destruct (PyFloat.parse_decimal _) as [[m e10]|].
Qed.

Lemma parse_price_succeeds_digits s :
  (exists x, CommodityScraper.parse_price (PyStr s) = Ok (Some x)) <->
  PyStr.str_exists PyStr.is_digit s = true /\
  Outcome.str_count Outcome.is_period s <= 1.
Proof.
  rewrite parse_price_str, parse_by_numeral. cbn zeta.
  pose proof (parse_decimal_numeral (PyStr.str_filter PyFloat.numeral_char s)
                (forall_filter PyFloat.numeral_char s)) as H.
  rewrite str_exists_filter, str_count_filter in H.
  2: { intros c Hc. unfold PyFloat.numeral_char. unfold Outcome.is_period in Hc.
       rewrite Hc. apply orb_true_r. }
  2: { intros c Hc. unfold PyFloat.numeral_char. now rewrite Hc. }
  rewrite <- H. clear H.
  destruct (PyStr.is_empty (PyStr.str_filter PyFloat.numeral_char s)) eqn:Ee.
  - split; [now intros [x [=]]|]. intros [mp Hmp]. exfalso.
    destruct (PyStr.str_filter PyFloat.numeral_char s); [|discriminate].
    discriminate.
  - destruct (PyFloat.parse_decimal _) as [[m e10]|].
    + split; [now eexists|]. intros _. now eexists.
    + split; [now intros [x [=]]|]. now intros [x Hx].
Qed.

(** X9: [parse_price] gives a price exactly when the text holds at least
    one digit and at most one period; every other text gives none. *)
Theorem parse_price_succeeds_iff (s : string) :
  ((exists x, CommodityScraper.parse_price (PyStr s) = Ok (Some x)) <->
   PyStr.str_exists PyStr.is_digit s = true /\
   Outcome.str_count Outcome.is_period s <= 1) /\
  (CommodityScraper.parse_price (PyStr s) = Ok None <->
   PyStr.str_exists PyStr.is_digit s = false \/
   2 <= Outcome.str_count Outcome.is_period s).
Proof.
  pose proof (parse_price_succeeds_digits s) as H. split; [exact H|].
  rewrite parse_price_str in *. split.
  - intros [= E]. rewrite E in H.
    destruct (PyStr.str_exists PyStr.is_digit s); [|now left]. right.
    destruct (le_lt_dec (Outcome.str_count Outcome.is_period s) 1) as [Hle|Hlt]; [|lia].
    destruct (proj2 H (conj eq_refl Hle)) as [x Hx]. discriminate.
  - intros Hbad. destruct (Spec.parse s) as [x|]; [|reflexivity]. exfalso.
    destruct (proj1 H (ex_intro _ x eq_refl)) as [Hd Hp].
    destruct Hbad as [Hbad|Hbad]; [congruence|lia].
Qed.

(** X10: what else the text holds (a sign, letters, currency marks, blanks,
    commas) has no part in the result; the price is the double nearest to
    the number its digits spell, with the digits that follow the period as
    decimals. *)
Theorem parse_price_reads_digits_only (s ip fp : string) :
  PyStr.str_forall PyStr.is_digit ip = true ->
  PyStr.str_forall PyStr.is_digit fp = true ->
  (PyStr.str_filter PyFloat.numeral_char s = ip /\ ip <> "" /\ fp = "" \/
   PyStr.str_filter PyFloat.numeral_char s = ip +:+ String "." fp /\ ip +:+ fp <> "") ->
  CommodityScraper.parse_price (PyStr s) =
  Ok (Some (PyFloat.of_decimal false (PyFloat.digits_value 0 (ip +:+ fp))
                               (- Z.of_nat (String.length fp)))).
Proof.
  intros Hip Hfp H. rewrite parse_price_str, parse_by_numeral. cbn zeta.
  destruct H as [(-> & Hne & ->)|(-> & Hne)].
  - destruct ip as [|c ip]; [contradiction|]. cbn [PyStr.is_empty].
    unfold PyFloat.parse_decimal. rewrite (span_digits_all _ Hip).
    cbn [PyStr.is_empty andb]. now rewrite append_empty_r.
  - assert (He : PyStr.is_empty (ip +:+ String "." fp) = false) by now destruct ip.
    rewrite He. unfold PyFloat.parse_decimal.
    rewrite span_digits_app; [|exact Hip|right; now exists "."%char, fp].
    rewrite Ascii.eqb_refl.
    rewrite (span_digits_all _ Hfp).
    destruct (PyStr.is_empty ip && PyStr.is_empty fp) eqn:E; [|reflexivity].
    apply andb_true_iff in E. destruct E as [E1 E2].
    destruct ip; [|discriminate]. destruct fp; [|discriminate]. now contradiction Hne.
Qed.

Lemma parse_price_reads_digits_only_witness :
  CommodityScraper.parse_price (PyStr "-US$ 1,234.50e") =
  Ok (Some (PyFloat.of_decimal false 123450 (-2))).
Proof.
  apply (parse_price_reads_digits_only "-US$ 1,234.50e" "1234" "50");
    [reflexivity|reflexivity|].
  right. split; [reflexivity|discriminate].
Defined.

(** ** More on cleaned labels *)

Lemma rstrip_no_trail p s : Outcome.no_trail p (PyStr.rstrip_by p s) = true.
Proof.
  induction s as [|c s IH]; [reflexivity|]. simpl.
  destruct (PyStr.rstrip_by p s) as [|d r].
  - destruct (p c) eqn:E; simpl; [reflexivity|now rewrite E].
  - exact IH.
Qed.

Lemma lstrip_length p s : String.length (PyStr.lstrip_by p s) <= String.length s.
Proof.
  induction s as [|c s IH]; simpl; [lia|]. destruct (p c); simpl; lia.
Qed.

Lemma rstrip_length p s : String.length (PyStr.rstrip_by p s) <= String.length s.
Proof.
  induction s as [|c s IH]; simpl; [lia|].
  destruct (PyStr.rstrip_by p s) as [|d r]; [destruct (p c)|]; simpl in *; lia.
Qed.

Lemma filter_length p s : String.length (PyStr.str_filter p s) <= String.length s.
Proof.
  induction s as [|c s IH]; simpl; [lia|]. destruct (p c); simpl; lia.
Qed.

Lemma before_line_break_length s :
  String.length (Spec.before_line_break s) <= String.length s.
Proof.
  induction s as [|c s IH]; simpl; [lia|]. destruct (Spec.is_line_break c); simpl; lia.
Qed.

Lemma strip_length s : String.length (PyStr.strip s) <= String.length s.
Proof.
  unfold PyStr.strip. etransitivity; [apply rstrip_length|apply lstrip_length].
Qed.

(** X11: a cleaned label neither starts nor ends with whitespace and is
    never longer than the raw label. *)
Theorem cleaned_label_is_trimmed_and_no_longer (L : string) :
  PyStr.no_lead PyStr.is_space (CommodityScraper.clean_commodity_name L) = true /\
  Outcome.no_trail PyStr.is_space (CommodityScraper.clean_commodity_name L) = true /\
  String.length (CommodityScraper.clean_commodity_name L) <= String.length L.
Proof.
  rewrite clean_unfold. split; [|split].
  - apply rstrip_no_lead, lstrip_no_lead.
  - apply rstrip_no_trail.
  - etransitivity; [apply strip_length|]. etransitivity; [apply filter_length|].
    etransitivity; [apply strip_length|]. apply before_line_break_length.
Qed.

(** ** Targets no label can match *)

Lemma cleaned_char_lower c :
  Outcome.cleaned_char (PyStr.lower_char c) = Outcome.cleaned_char c.
Proof. destruct c as [[] [] [] [] [] [] [] []]; vm_compute; reflexivity. Qed.

Lemma forall_lower (P : ascii -> bool) s :
  (forall c, P (PyStr.lower_char c) = P c) ->
  PyStr.str_forall P (PyStr.lower s) = PyStr.str_forall P s.
Proof.
  intros H. unfold PyStr.lower. induction s as [|c s IH]; [reflexivity|].
  simpl. now rewrite H, IH.
Qed.

Lemma clean_cleaned_chars L :
  PyStr.str_forall Outcome.cleaned_char (CommodityScraper.clean_commodity_name L) = true.
Proof.
  apply (str_forall_and Spec.label_char (fun c => negb (Spec.is_line_break c))).
  - intros c H1 H2. unfold Outcome.cleaned_char. now rewrite H1, H2.
  - apply clean_label_chars.
  - apply clean_no_line_break.
Qed.

Lemma matched_target_chars self L target :
  CommodityScraper.is_target_commodity self (CommodityScraper.clean_commodity_name L)
    = Some target ->
  PyStr.str_forall Outcome.cleaned_char target = true.
Proof.
  intros H. apply first_target_some in H.
  destruct H as (_ & _ & _ & (before & after & E) & _).
  pose proof (clean_cleaned_chars L) as Hc.
  rewrite <- (forall_lower _ _ cleaned_char_lower), E, !str_forall_app in Hc.
  apply andb_true_iff in Hc. destruct Hc as [_ Hc].
  apply andb_true_iff in Hc. destruct Hc as [Hc _].
  now rewrite (forall_lower _ _ cleaned_char_lower) in Hc.
Qed.

Lemma row_quote_target_chars self row target p :
  Scan.row_quote self row = Some (target, p) ->
  PyStr.str_forall Outcome.cleaned_char target = true.
Proof.
  unfold Scan.row_quote.
  destruct (Bs4.find_all ["td"; "th"] row) as [|c0 [|c1 rest]]; try discriminate.
  destruct (CommodityScraper.is_target_commodity self _) as [t|] eqn:Et; [|discriminate].
  destruct (CommodityScraper.parse_price _) as [[x|]|e]; try discriminate.
  intros [= -> _]. now apply matched_target_chars in Et.
Qed.

Lemma forall_excludes_exists (P : ascii -> bool) s :
  PyStr.str_forall P s = true -> PyStr.str_exists (fun c => negb (P c)) s = false.
Proof.
  induction s as [|c s IH]; [reflexivity|]. cbn [PyStr.str_forall PyStr.str_exists].
  intros H. apply andb_true_iff in H. destruct H as [Hc Hs]. now rewrite Hc, IH.
Qed.

(** X12: a label is cleaned before it is matched.  The characters of this
    embedding are those of code point up to 255, and lowering neither
    alters nor yields one of them that is a line break or neither word
    character, whitespace nor hyphen.  So a target holding such a
    character (a period, a percent sign, a bracket, a line feed) is never
    matched by a label and never gets a record. *)
Theorem target_with_punctuation_is_never_found
    (self : CommodityScraper.t) (now : datetime) (target : string) :
  PyStr.str_exists (fun c => negb (Outcome.cleaned_char c)) target = true ->
  (forall L,
     CommodityScraper.is_target_commodity self (CommodityScraper.clean_commodity_name L)
       <> Some target) /\
  (forall fetch_page,
     CommodityScraper.scrape_commodities self fetch_page now !! target = None).
Proof.
  intros Hbad.
  assert (Hplain : PyStr.str_forall Outcome.cleaned_char target = true -> False).
  { intros H. apply forall_excludes_exists in H. congruence. }
  split.
  - intros L H. now apply Hplain, (matched_target_chars self L).
  - intros fetch_page. unfold CommodityScraper.scrape_commodities.
    destruct fetch_page as [soup|e]; cbn [mbind result_bind]; [|apply lookup_empty].
    destruct (CommodityScraper.scrape_all_tables self soup now) as [results|e] eqn:Es;
      [|apply lookup_empty].
    destruct (results !! target) as [record|] eqn:H; [exfalso|reflexivity].
    assert (Hk : is_Some (results !! target)) by (exists record; exact H).
    apply (recorded_keys_quoted self soup now results target Es) in Hk.
    destruct Hk as (_ & row & p & _ & Hq). now apply Hplain, (row_quote_target_chars self row _ p).
Qed.

Lemma target_with_punctuation_witness :
  CommodityScraper.is_target_commodity (CommodityScraper.init (Some ["U.S. Steel"]))
    (CommodityScraper.clean_commodity_name "U.S. Steel") <> Some "U.S. Steel" /\
  CommodityScraper.scrape_commodities (CommodityScraper.init (Some ["U.S. Steel"]))
    (Ok (Samples.page [Samples.table [Samples.header; Samples.row "U.S. Steel" "5"]])) 0%Z
    !! "U.S. Steel" = None.
Proof.
  destruct (target_with_punctuation_is_never_found
              (CommodityScraper.init (Some ["U.S. Steel"])) 0%Z "U.S. Steel" eq_refl)
    as [Hmatch Hrun].
  split; [apply Hmatch|apply Hrun].
Defined.

(** ** The log: the logged functions return what the plain ones return *)

Lemma log_parse_price_result v :
  snd (Log.parse_price v) = CommodityScraper.parse_price v.
Proof.
  unfold Log.parse_price, CommodityScraper.parse_price, try_except. cbn zeta.
  destruct (_ ≫= _) as [r|[]]; reflexivity.
Qed.

Lemma log_scan_row_result self now s row :
  snd (Log.scan_row self now s row) = CommodityScraper.scan_row self now s row.
Proof.
  unfold Log.scan_row, CommodityScraper.scan_row.
  destruct (Bs4.find_all ["td"; "th"] row) as [|c0 [|c1 rest]]; try reflexivity.
  destruct (CommodityScraper.is_target_commodity self _) as [target|]; [|reflexivity].
  destruct (PyStr.is_empty target); [reflexivity|].
  rewrite <- log_parse_price_result.
  destruct (Log.parse_price _) as [written [[p|]|e]]; reflexivity.
Qed.

Lemma log_for_each_result {A S : Type} (lbody : S -> A -> Log.logged S)
    (body : S -> A -> result S) l :
  (forall s a, snd (lbody s a) = body s a) ->
  forall s, snd (Log.for_each l lbody s) = for_each l body s.
Proof.
  intros H. induction l as [|a l IH]; intros s; cbn [Log.for_each for_each]; [reflexivity|].
  rewrite <- H. destruct (lbody s a) as [written [s'|e]]; cbn [snd mbind result_bind].
  - rewrite <- IH. now destruct (Log.for_each l lbody s').
  - reflexivity.
Qed.

Lemma log_scan_table_result self now s table :
  snd (Log.scan_table self now s table) = CommodityScraper.scan_table self now s table.
Proof.
  unfold Log.scan_table, CommodityScraper.scan_table.
  destruct (_ <? _)%nat; [reflexivity|].
  apply log_for_each_result. intros s0 a. apply log_scan_row_result.
Qed.

Lemma log_scrape_result self soup now :
  snd (Log.scrape_all_tables self soup now) =
  CommodityScraper.scrape_all_tables self soup now.
Proof.
  apply log_for_each_result. intros s a. apply log_scan_table_result.
Qed.

Lemma log_fetch_result outcome : snd (Log.fetch_page outcome) = outcome.
Proof. now destruct outcome as [soup|[]]. Qed.

Lemma log_run_result self outcome now :
  snd (Log.scrape_commodities self outcome now) =
  CommodityScraper.scrape_commodities self outcome now.
Proof.
  unfold Log.scrape_commodities, CommodityScraper.scrape_commodities.
  rewrite <- (log_fetch_result outcome) at 2.
  destruct (Log.fetch_page outcome) as [fetching [soup|e]]; cbn [snd mbind result_bind];
    [|reflexivity].
  rewrite <- log_scrape_result.
  now destruct (Log.scrape_all_tables self soup now) as [scanning [prices|e]].
Qed.

(** ** When [parse_price] warns *)

Lemma malformed_not_parsed s :
  Outcome.malformed s = true -> Spec.parse s = None.
Proof.
  unfold Outcome.malformed. intros H. apply andb_true_iff in H. destruct H as [_ H].
  destruct (Spec.parse s) as [x|] eqn:E; [|reflexivity]. exfalso.
  assert (Hx : exists y, CommodityScraper.parse_price (PyStr s) = Ok (Some y))
    by (exists x; now rewrite parse_price_str, E).
  apply parse_price_succeeds_digits in Hx. destruct Hx as [Hd Hp].
  apply Nat.leb_le in Hp. now rewrite Hd, Hp in H.
Qed.

Lemma log_parse_price_text s :
  Log.parse_price (PyStr s) =
  (if Outcome.malformed s then [Log.CouldNotParse (PyStr s)] else [], Ok (Spec.parse s)).
Proof.
  pose proof (parse_by_numeral s) as Hp. cbn zeta in Hp.
  unfold Log.parse_price. cbn [CommodityScraper.re_subject mbind result_bind]. cbn zeta.
  rewrite parse_price_clean, filter_filter_numeral.
  unfold Spec.parse in *. rewrite filter_filter_numeral in *.
  unfold Outcome.malformed.
  rewrite <- (str_exists_filter PyFloat.numeral_char PyFloat.numeral_char s) by auto.
  pose proof (parse_decimal_numeral (PyStr.str_filter PyFloat.numeral_char s)
                (forall_filter PyFloat.numeral_char s)) as Hd.
  rewrite str_exists_filter, str_count_filter in Hd.
  2: { intros c Hc. unfold PyFloat.numeral_char. unfold Outcome.is_period in Hc.
       rewrite Hc. apply orb_true_r. }
  2: { intros c Hc. unfold PyFloat.numeral_char. now rewrite Hc. }
  destruct (PyStr.str_filter PyFloat.numeral_char s) as [|c t] eqn:Ef.
  - reflexivity.
  - cbn [PyStr.is_empty] in *.
    assert (He : PyStr.str_exists PyFloat.numeral_char (String c t) = true).
    { pose proof (forall_filter PyFloat.numeral_char s) as Hf. rewrite Ef in Hf.
      cbn [PyStr.str_forall PyStr.str_exists] in *.
      apply andb_true_iff in Hf. now destruct Hf as [-> _]. }
    rewrite He. cbn [andb].
    rewrite of_string_numeral in * by (rewrite <- Ef; apply forall_filter).
    destruct (PyFloat.parse_decimal (String c t)) as [[m e10]|].
    + destruct Hd as [Hd _]. destruct (Hd (ex_intro _ _ eq_refl)) as [H1 H2].
      apply Nat.leb_le in H2. now rewrite H1, H2.
    + cbn [mbind result_bind].
      destruct (PyStr.str_exists PyStr.is_digit s &&
                (Outcome.str_count Outcome.is_period s <=? 1)%nat) eqn:E; [|reflexivity].
      apply andb_true_iff in E. destruct E as [H1 H2]. apply Nat.leb_le in H2.
      destruct Hd as [_ Hd]. destruct (Hd (conj H1 H2)) as [x Hx]. discriminate.
Qed.

(** X13: [parse_price] writes a warning exactly for a text that holds a
    digit or a period and yet is no numeral (no digit, or two periods or
    more); it then returns none. A text with neither digit nor period
    gives none with no warning, and a value that is no text raises with
    nothing logged. *)
Theorem parse_price_warns_on_malformed_numerals :
  (forall s,
     Log.parse_price (PyStr s) =
     (if Outcome.malformed s then [Log.CouldNotParse (PyStr s)] else [],
      CommodityScraper.parse_price (PyStr s))) /\
  (forall s, Outcome.malformed s = true ->
             CommodityScraper.parse_price (PyStr s) = Ok None) /\
  (forall s, PyStr.str_exists PyFloat.numeral_char s = false ->
             Log.parse_price (PyStr s) = ([], Ok None)) /\
  (forall v, Outcome.is_text v = false -> Log.parse_price v = ([], Raise TypeError)).
Proof.
  split; [|split; [|split]].
  - intros s. now rewrite log_parse_price_text, parse_price_str.
  - intros s H. now rewrite parse_price_str, (malformed_not_parsed s H).
  - intros s H. rewrite log_parse_price_text. unfold Outcome.malformed. rewrite H.
    cbn [andb]. f_equal. f_equal. rewrite parse_by_numeral. cbn zeta.
    assert (E : PyStr.str_filter PyFloat.numeral_char s = "").
    { clear -H. induction s as [|c s IH]; [reflexivity|]. simpl in *.
      apply orb_false_iff in H. destruct H as [-> H]. now apply IH. }
    now rewrite E.
  - intros [|s|t] H; [reflexivity|discriminate|reflexivity].
Qed.

(** ** What the scan logs *)

Lemma log_scan_row_written self now s row :
  fst (Log.scan_row self now s row) =
  match Outcome.row_warning self row with
  | Some v => [Log.CouldNotParse v]
  | None => []
  end.
Proof.
  unfold Log.scan_row, Outcome.row_warning.
  destruct (Bs4.find_all ["td"; "th"] row) as [|c0 [|c1 rest]]; try reflexivity.
  destruct (CommodityScraper.is_target_commodity self _) as [target|]; [|reflexivity].
  destruct (PyStr.is_empty target); [reflexivity|].
  destruct (CommodityScraper.extract_price_from_cell c1) as [|t|e].
  - reflexivity.
  - rewrite log_parse_price_text.
    destruct (Outcome.malformed t), (Spec.parse t); reflexivity.
  - reflexivity.
Qed.

Lemma log_for_each_written self now rows s :
  (exists results, for_each rows (CommodityScraper.scan_row self now) s = Ok results) ->
  fst (Log.for_each rows (Log.scan_row self now) s) =
  map Log.CouldNotParse (omap (Outcome.row_warning self) rows).
Proof.
  revert s. induction rows as [|row rows IH]; intros s [results H]; [reflexivity|].
  cbn [for_each] in H. cbn [Log.for_each omap list_omap].
  pose proof (log_scan_row_written self now s row) as Hw.
  pose proof (log_scan_row_result self now s row) as Hr.
  destruct (Log.scan_row self now s row) as [written [mid|e]]; cbn [fst snd] in Hw, Hr;
    rewrite <- Hr in H; cbn [mbind result_bind] in H; [|discriminate].
  specialize (IH mid (ex_intro _ results H)).
  destruct (Log.for_each rows (Log.scan_row self now) mid) as [written' r].
  cbn [fst] in *. subst written written'.
  now destruct (Outcome.row_warning self row).
Qed.

Lemma log_for_each_app {A S : Type} (body : S -> A -> Log.logged S) l1 l2 s :
  Log.for_each (l1 ++ l2) body s =
  match Log.for_each l1 body s with
  | (w1, Ok s1) => let '(w2, r) := Log.for_each l2 body s1 in ((w1 ++ w2)%list, r)
  | (w1, Raise e) => (w1, Raise e)
  end.
Proof.
  revert s. induction l1 as [|a l1 IH]; intros s; cbn [app Log.for_each].
  - now destruct (Log.for_each l2 body s).
  - destruct (body s a) as [w [s1|e]]; [|reflexivity].
    rewrite IH. destruct (Log.for_each l1 body s1) as [w1 [s2|e]]; [|reflexivity].
    destruct (Log.for_each l2 body s2) as [w2 r]. now rewrite app_assoc.
Qed.

Lemma log_scrape_as_rows self soup now :
  Log.scrape_all_tables self soup now =
  Log.for_each (Scan.data_rows soup) (Log.scan_row self now) ∅.
Proof.
  unfold Log.scrape_all_tables, Scan.data_rows.
  generalize (∅ : gmap string CommodityPrice.t).
  induction (Bs4.find_all ["table"] soup) as [|table tables IH]; intros s; [reflexivity|].
  cbn [flat_map Log.for_each]. rewrite log_for_each_app.
  assert (Ht : Log.scan_table self now s table =
               Log.for_each (let rows := Bs4.find_all ["tr"] table in
                             if (List.length rows <? 2)%nat then [] else List.tl rows)
                            (Log.scan_row self now) s).
  { unfold Log.scan_table. now destruct (_ <? _)%nat. }
  cbn zeta in Ht. rewrite <- Ht.
  destruct (Log.scan_table self now s table) as [w [s1|e]]; [|reflexivity].
  now rewrite IH.
Qed.

Lemma scan_log_written self soup now results :
  CommodityScraper.scrape_all_tables self soup now = Ok results ->
  Log.scrape_all_tables self soup now =
  (map Log.CouldNotParse (omap (Outcome.row_warning self) (Scan.data_rows soup)),
   Ok results).
Proof.
  intros H. pose proof (log_scrape_result self soup now) as Hr.
  rewrite H in Hr. rewrite scrape_as_rows in H.
  pose proof (log_for_each_written self now _ ∅ (ex_intro _ results H)) as Hw.
  rewrite <- log_scrape_as_rows in Hw.
  destruct (Log.scrape_all_tables self soup now) as [w r]. cbn [fst snd] in *.
  now subst.
Qed.


Lemma log_for_each_only_warnings self now rows s ev :
  In ev (fst (Log.for_each rows (Log.scan_row self now) s)) ->
  exists v, ev = Log.CouldNotParse v.
Proof.
  revert s. induction rows as [|row rows IH]; intros s; cbn [Log.for_each]; [intros []|].
  pose proof (log_scan_row_written self now s row) as Hw.
  destruct (Log.scan_row self now s row) as [written [mid|e]]; cbn [fst] in Hw; subst written.
  - specialize (IH mid).
    destruct (Log.for_each rows (Log.scan_row self now) mid) as [written' r].
    cbn [fst] in *. intros H. apply in_app_or in H. destruct H as [H|H]; [|now apply IH].
    destruct (Outcome.row_warning self row) as [v|]; [|destruct H].
    destruct H as [<-|[]]. now exists v.
  - cbn [fst]. intros H.
    destruct (Outcome.row_warning self row) as [v|]; [|destruct H].
    destruct H as [<-|[]]. now exists v.
Qed.

Lemma log_scrape_only_warnings self soup now ev :
  In ev (fst (Log.scrape_all_tables self soup now)) -> exists v, ev = Log.CouldNotParse v.
Proof. rewrite log_scrape_as_rows. apply log_for_each_only_warnings. Qed.

(** X14: a scan that returns has logged one warning for each row it
    visited that matches a non-empty target and whose price text is a
    malformed numeral, in the order of the visit, and nothing else. *)
Theorem scan_log_is_the_malformed_prices
    (self : CommodityScraper.t) (soup : Bs4.node) (now : datetime)
    (results : gmap string CommodityPrice.t) :
  CommodityScraper.scrape_all_tables self soup now = Ok results ->
  Log.scrape_all_tables self soup now =
    (map Log.CouldNotParse (omap (Outcome.row_warning self) (Scan.data_rows soup)),
     Ok results) /\
  forall ev, In ev (fst (Log.scrape_all_tables self soup now)) ->
             Log.level_of ev = Log.WARNING.
Proof.
  intros H. split; [now apply scan_log_written|].
  intros ev Hev. apply log_scrape_only_warnings in Hev. now destruct Hev as [v ->].
Qed.

(** ** What the run logs *)

(** X15: a run whose scan returns logs the scan's warnings and then one
    more warning exactly when some configured target has no record; that
    warning names exactly the configured targets without a record. *)
Theorem missing_warning_names_the_absent_targets
    (self : CommodityScraper.t) (soup : Bs4.node) (now : datetime)
    (results : gmap string CommodityPrice.t) :
  CommodityScraper.scrape_all_tables self soup now = Ok results ->
  exists missing : gset string,
    Log.scrape_commodities self (Ok soup) now =
      ((map Log.CouldNotParse (omap (Outcome.row_warning self) (Scan.data_rows soup)) ++
        (if decide (missing = ∅) then [] else [Log.MissingCommodities missing]))%list,
       results) /\
    (forall t, t ∈ missing <->
               In t (CommodityScraper.target_commodities self) /\ results !! t = None) /\
    (missing = ∅ <->
     forall t, In t (CommodityScraper.target_commodities self) -> is_Some (results !! t)).
Proof.
  intros H.
  exists (list_to_set (CommodityScraper.target_commodities self) ∖ dom results).
  assert (Hin : forall t,
            t ∈ (list_to_set (CommodityScraper.target_commodities self) ∖ dom results
                 : gset string) <->
            In t (CommodityScraper.target_commodities self) /\ results !! t = None).
  { intros t. rewrite elem_of_difference, elem_of_list_to_set, list_elem_of_In, not_elem_of_dom.
    reflexivity. }
  split; [|split; [exact Hin|]].
  - unfold Log.scrape_commodities. cbn [Log.fetch_page].
    rewrite (scan_log_written self soup now results H). reflexivity.
  - split.
    + intros E t Ht. destruct (results !! t) as [r|] eqn:Er; [now eexists|].
      exfalso. assert (Hm : t ∈ (∅ : gset string)) by (rewrite <- E; now apply Hin).
      now apply not_elem_of_empty in Hm.
    + intros Hall. apply leibniz_equiv, elem_of_equiv_empty. intros t Ht.
      apply Hin in Ht. destruct Ht as [Ht Hnone].
      destruct (Hall t Ht) as [r Hr]. congruence.
Qed.

Lemma missing_warning_witness :
  exists missing : gset string,
    Log.scrape_commodities Samples.scraper (Ok Samples.two_tables) 0%Z =
      ((map Log.CouldNotParse
            (omap (Outcome.row_warning Samples.scraper) (Scan.data_rows Samples.two_tables)) ++
        (if decide (missing = ∅) then [] else [Log.MissingCommodities missing]))%list,
       CommodityScraper.scrape_commodities Samples.scraper (Ok Samples.two_tables) 0%Z) /\
    "Lithium" ∈ missing.
Proof.
  destruct (missing_warning_names_the_absent_targets Samples.scraper Samples.two_tables 0%Z
              (CommodityScraper.scrape_commodities Samples.scraper (Ok Samples.two_tables) 0%Z))
    as (missing & Hlog & Hin & _).
  - vm_compute. reflexivity.
  - exists missing. split; [exact Hlog|]. apply Hin. split; [now left|].
    vm_compute. reflexivity.
Defined.

Ltac no_such_event Hno ev H :=
  exfalso; now apply (Hno ev ltac:(discriminate) ltac:(discriminate) H).

(** X16: the run logs "Scraping failed" exactly when the fetch fails or the
    scan raises, with the exception that was raised; the record is then the
    last of the log, no warning about missing commodities is written, and
    the mapping returned is empty. "Failed to fetch page" is logged
    exactly for a request exception. *)
Theorem failed_run_logs_the_error_and_returns_nothing
    (self : CommodityScraper.t) (outcome : result Bs4.node) (now : datetime) :
  (forall e,
     In (Log.ScrapingFailed e) (fst (Log.scrape_commodities self outcome now)) <->
     outcome = Raise e \/
     exists soup, outcome = Ok soup /\
                  CommodityScraper.scrape_all_tables self soup now = Raise e) /\
  (forall e,
     In (Log.ScrapingFailed e) (fst (Log.scrape_commodities self outcome now)) ->
     snd (Log.scrape_commodities self outcome now) = ∅ /\
     last (fst (Log.scrape_commodities self outcome now)) = Some (Log.ScrapingFailed e) /\
     forall m, ~ In (Log.MissingCommodities m)
                    (fst (Log.scrape_commodities self outcome now))) /\
  (forall e,
     In (Log.FailedToFetch e) (fst (Log.scrape_commodities self outcome now)) <->
     e = RequestException /\ outcome = Raise RequestException).
Proof.
  unfold Log.scrape_commodities.
  destruct outcome as [soup|e0].
  - cbn [Log.fetch_page].
    pose proof (log_scrape_result self soup now) as Hr.
    pose proof (log_scrape_only_warnings self soup now) as Hw.
    destruct (Log.scrape_all_tables self soup now) as [scanning [prices|e1]];
      cbn [fst snd app] in *.
    + assert (Hno : forall ev, (forall v, ev <> Log.CouldNotParse v) ->
                      (forall m, ev <> Log.MissingCommodities m) ->
                      ~ In ev (scanning ++
                                 (if decide (list_to_set (CommodityScraper.target_commodities self)
                                               ∖ dom prices = (∅ : gset string))
                                  then [] else [Log.MissingCommodities
                                                  (list_to_set
                                                     (CommodityScraper.target_commodities self)
                                                     ∖ dom prices)]))).
      { intros ev H1 H2 H. apply in_app_or in H. destruct H as [H|H].
        - destruct (Hw ev H) as [v ->]. exact (H1 v eq_refl).
        - destruct (decide _); [destruct H|]. destruct H as [<-|[]]. exact (H2 _ eq_refl). }
      split; [|split].
      * intros e. split.
        -- intros H. no_such_event Hno (Log.ScrapingFailed e) H.
        -- intros [H|(soup' & [= <-] & H)]; [discriminate|congruence].
      * intros e H. no_such_event Hno (Log.ScrapingFailed e) H.
      * intros e. split.
        -- intros H. no_such_event Hno (Log.FailedToFetch e) H.
        -- intros [_ H]. discriminate.
    + assert (Hno : forall ev, (forall v, ev <> Log.CouldNotParse v) ->
                      (forall e, ev <> Log.ScrapingFailed e) ->
                      ~ In ev (scanning ++ [Log.ScrapingFailed e1])).
      { intros ev H1 H2 H. apply in_app_or in H. destruct H as [H|[<-|[]]].
        - destruct (Hw ev H) as [v ->]. exact (H1 v eq_refl).
        - exact (H2 e1 eq_refl). }
      split; [|split].
      * intros e. split.
        -- intros H. apply in_app_or in H. destruct H as [H|[[= <-]|[]]].
           ++ destruct (Hw _ H) as [v Hv]. discriminate.
           ++ right. now exists soup.
        -- intros [H|(soup' & [= <-] & H)]; [discriminate|].
           rewrite H in Hr. injection Hr as ->. apply in_or_app. right. now left.
      * intros e H. apply in_app_or in H. destruct H as [H|[[= <-]|[]]].
        -- destruct (Hw _ H) as [v Hv]. discriminate.
        -- split; [reflexivity|]. split; [apply last_snoc|].
           intros m Hm. no_such_event Hno (Log.MissingCommodities m) Hm.
      * intros e. split.
        -- intros H. no_such_event Hno (Log.FailedToFetch e) H.
        -- intros [_ H]. discriminate.
  - assert (Hother : forall e1 : exn,
              (forall e, In (Log.ScrapingFailed e) [Log.ScrapingFailed e1] <->
                 Raise e1 = (Raise e : result Bs4.node) \/
                 exists soup, Raise e1 = Ok soup /\
                              CommodityScraper.scrape_all_tables self soup now = Raise e) /\
              (forall e, In (Log.ScrapingFailed e) [Log.ScrapingFailed e1] ->
                 (∅ : gmap string CommodityPrice.t) = ∅ /\
                 last [Log.ScrapingFailed e1] = Some (Log.ScrapingFailed e) /\
                 forall m, ~ In (Log.MissingCommodities m) [Log.ScrapingFailed e1])).
    { intros e1. split.
      - intros e. split.
        + intros [[= <-]|[]]. now left.
        + intros [[= <-]|(soup & H & _)]; [now left|discriminate H].
      - intros e [[= <-]|[]]. repeat split. intros m [H|[]]. discriminate H. }
    destruct e0; cbn [Log.fetch_page fst snd app].
    1, 2, 3: split; [apply Hother|split; [apply Hother|]];
      intros e; (split; [intros [H|[]]; discriminate H|intros [_ H]; discriminate H]).
    split; [|split].
    + intros e. split.
      * intros [H|[[= <-]|[]]]; [discriminate H|now left].
      * intros [[= <-]|(soup & H & _)]; [right; now left|discriminate H].
    + intros e [H|[[= <-]|[]]]; [discriminate H|]. repeat split.
      intros m [H|[H|[]]]; discriminate H.
    + intros e. split.
      * intros [[= <-]|[H|[]]]; [now split|discriminate H].
      * intros [-> _]. now left.
Qed.

(** ** Targets hidden by an earlier target *)

Lemma append_assoc_str a b c : (a +:+ b) +:+ c = a +:+ (b +:+ c).
Proof.
  induction a as [|x a IH]; [reflexivity|].
  change (String x ((a +:+ b) +:+ c) = String x (a +:+ (b +:+ c))). now f_equal.
Qed.

Lemma appears_in_trans t1 t2 label :
  Spec.appears_in t1 t2 -> Spec.appears_in t2 label -> Spec.appears_in t1 label.
Proof.
  intros (b1 & a1 & E1) (b2 & a2 & E2). exists (b2 +:+ b1), (a1 +:+ a2).
  now rewrite E2, E1, !append_assoc_str.
Qed.

Lemma earlier_in_split {A : Type} (x y : A) l1 l2 e l :
  (l1 ++ x :: l2 = e ++ y :: l)%list -> ~ In y l1 -> y <> x -> In x e.
Proof.
  revert e. induction l1 as [|a l1 IH]; intros e E Hy Hne.
  - destruct e as [|b e]; injection E as E1 E2; [congruence|]. now left.
  - destruct e as [|b e]; injection E as E1 E2.
    + exfalso. apply Hy. now left.
    + right. apply (IH e E2); [|exact Hne]. intros H. apply Hy. now right.
Qed.

Lemma shadowed_never_matched self label t1 t2 l1 l2 :
  CommodityScraper.target_commodities self = (l1 ++ t1 :: l2)%list ->
  ~ In t2 l1 -> t2 <> t1 -> Spec.appears_in t1 t2 ->
  CommodityScraper.is_target_commodity self label <> Some t2.
Proof.
  intros Ht Hl1 Hne Happ H. apply first_target_some in H.
  destruct H as (e & l & E & Hin & Hfirst).
  rewrite Ht in E. apply (Hfirst t1).
  - now apply (earlier_in_split t1 t2 l1 l2 e l).
  - now apply (appears_in_trans t1 t2).
Qed.

(** X17: a target whose lower-case form contains that of a target listed
    before it is never matched, whatever the label, and so never gets a
    record: the earlier target takes every row that could match it. *)
Theorem target_hidden_by_an_earlier_one
    (self : CommodityScraper.t) (t1 t2 : string) (l1 l2 : list string) :
  CommodityScraper.target_commodities self = (l1 ++ t1 :: l2)%list ->
  ~ In t2 l1 -> t2 <> t1 -> Spec.appears_in t1 t2 ->
  (forall label, CommodityScraper.is_target_commodity self label <> Some t2) /\
  (forall fetch_page now,
     CommodityScraper.scrape_commodities self fetch_page now !! t2 = None).
Proof.
  intros Ht Hl1 Hne Happ.
  split; [intros label; now apply (shadowed_never_matched self label t1 t2 l1 l2)|].
  intros fetch_page now. unfold CommodityScraper.scrape_commodities.
  destruct fetch_page as [soup|e]; cbn [mbind result_bind]; [|apply lookup_empty].
  destruct (CommodityScraper.scrape_all_tables self soup now) as [results|e] eqn:Es;
    [|apply lookup_empty].
  destruct (results !! t2) as [record|] eqn:Er; [|reflexivity]. exfalso.
  assert (Hk : is_Some (results !! t2)) by (exists record; exact Er).
  apply (recorded_keys_quoted self soup now results t2 Es) in Hk.
  destruct Hk as (_ & row & p & _ & Hq). revert Hq. unfold Scan.row_quote.
  destruct (Bs4.find_all ["td"; "th"] row) as [|c0 [|c1 rest]]; try discriminate.
  destruct (CommodityScraper.is_target_commodity self _) as [t|] eqn:Et; [|discriminate].
  destruct (CommodityScraper.parse_price _) as [[x|]|e]; try discriminate.
  intros [= -> _]. now apply (shadowed_never_matched self _ t1 t2 l1 l2) in Et.
Qed.

Lemma target_hidden_witness :
  CommodityScraper.scrape_commodities
    (CommodityScraper.init (Some ["Lead"; "Leaded petrol"]))
    (Ok (Samples.page [Samples.table [Samples.header; Samples.row "Leaded petrol" "3"]]))
    0%Z !! "Leaded petrol" = None.
Proof.
  apply (proj2 (target_hidden_by_an_earlier_one
                  (CommodityScraper.init (Some ["Lead"; "Leaded petrol"]))
                  "Lead" "Leaded petrol" [] ["Leaded petrol"]
                  eq_refl (fun H => H) ltac:(discriminate)
                  (ex_intro _ "" (ex_intro _ "ed petrol" eq_refl)))).
Defined.

(** ** The theorems above at work *)

Lemma scan_raises_witness :
  CommodityScraper.scrape_all_tables Samples.scraper Samples.page_with_failure 0%Z
  = Raise TypeError.
Proof.
  apply (proj1 (scan_raises_exactly_on_aborting_row
                  Samples.scraper Samples.page_with_failure 0%Z)).
  split; [reflexivity|]. exists Samples.row_without_price.
  split; [right; now left|reflexivity].
Defined.

Lemma scan_log_witness :
  Log.scrape_all_tables Samples.scraper MoreSamples.page_with_bad_numeral 0%Z =
  ([Log.CouldNotParse (PyStr "1.2.3")],
   Ok (CommodityScraper.scrape_commodities
         Samples.scraper (Ok MoreSamples.page_with_bad_numeral) 0%Z)).
Proof.
  apply (scan_log_is_the_malformed_prices
           Samples.scraper MoreSamples.page_with_bad_numeral 0%Z).
  vm_compute. reflexivity.
Defined.
